(** * Furniture business optimisation: the MILP model and the result mapper

    A shallow embedding of [FurnitureBusinessOptimization] from
    [task4_furniture_business_optimization.py]: the parameters set up by
    [__init__], the linear program that [optimize_business_strategy] states
    with PuLP, the dictionary it fills from the solved problem, and the
    report and chart that [run_optimization] and [visualize_results] make
    of it.

    The solver behind [prob.solve()] is an external program.  It is not
    modelled: what it leaves in the problem (a status code and a value per
    variable) is an argument of the embedding, and the theorems that speak
    about optimal solutions assume the usual contract of an exact MILP
    solver, stated below as [milp_solved]. *)

From Stdlib Require Import ZArith QArith Qabs Qreduction List String Ascii Bool Lia.
From Stdlib Require Import DecimalString.
From Stdlib Require Qcanon.
Import ListNotations.
Open Scope Z_scope.

(** ** Python values and conversions *)
Module Py.

(** The exceptions the conversions of the mapper can raise. *)
Inductive exn : Set := KeyError | TypeError | ValueError | OverflowError.

Inductive res (A : Type) : Type :=
| Ok (a : A)
| Raise (e : exn).
Arguments Ok {A} a.
Arguments Raise {A} e.

Definition bind {A B : Type} (c : res A) (k : A -> res B) : res B :=
  match c with
  | Ok a => k a
  | Raise e => Raise e
  end.

(** A Python float: a finite value, kept as the exact rational it denotes,
    an infinity or a nan.  [int] and truthiness are exact on floats; sums
    and products are rounded to the nearest double, see [round64]. *)
Inductive float : Set :=
| Fin (q : Q)
| PInf
| NInf
| NaN.

(** Truncation toward zero, what [int] does on a finite float. *)
Definition trunc (q : Q) : Z := Z.quot (Qnum q) (Z.pos (Qden q)).

(** [int(x)] for [x] a float or [None]. *)
Definition int (x : option float) : res Z :=
  match x with
  | None => Raise TypeError
  | Some (Fin q) => Ok (trunc q)
  | Some NaN => Raise ValueError
  | Some PInf | Some NInf => Raise OverflowError
  end.

(** Truth value of a float or [None], as in [bool(x)] and [... if x else ...]. *)
Definition truthy (x : option float) : bool :=
  match x with
  | None => false
  | Some (Fin q) => negb (Qeq_bool q 0)
  | Some _ => true
  end.

(** [n / d] divided by [2 ^ e], as a fraction ([0 < d]). *)
Definition scale2 (n d e : Z) : Z * Z :=
  if 0 <=? e then (n, d * 2 ^ e) else (n * 2 ^ (- e), d).

(** The integer nearest to [n / d], the even one of two that are equally
    near ([0 <= n], [0 < d]). *)
Definition nearest_even (n d : Z) : Z :=
  let q := n / d in
  match 2 * (n mod d) ?= d with
  | Lt => q
  | Gt => q + 1
  | Eq => if Z.even q then q else q + 1
  end.

(** The integer part of the binary logarithm of [n / d] ([0 < n],
    [0 < d]). *)
Definition ilog2 (n d : Z) : Z :=
  let k := Z.log2 n - Z.log2 d in
  let (n', d') := scale2 n d k in
  if d' <=? n' then k else k - 1.

(** The double nearest to [n / d] ([0 < n], [0 < d]): a significand of at
    most 53 bits, chosen by round-half-to-even, times a power of two not
    below [2 ^ -1074]; [None] when the result is beyond the largest
    double. *)
Definition round_mag (n d : Z) : option Q :=
  let e := Z.max (-1074) (ilog2 n d - 52) in
  let (n', d') := scale2 n d e in
  let m := nearest_even n' d' in
  if 0 <=? e
  then if 2 ^ 1024 <=? m * 2 ^ e then None else Some (inject_Z (m * 2 ^ e))
  else Some (Qred (m # Z.to_pos (2 ^ (- e)))).

(** The float that an operation with the exact result [q] returns: [q]
    rounded to the nearest double, an infinity beyond the largest one. *)
Definition round64 (q : Q) : float :=
  match Qnum q with
  | 0 => Fin 0
  | Z.pos n =>
      match round_mag (Z.pos n) (Z.pos (Qden q)) with
      | Some r => Fin r
      | None => PInf
      end
  | Z.neg n =>
      match round_mag (Z.pos n) (Z.pos (Qden q)) with
      | Some r => Fin (- r)
      | None => NInf
      end
  end.

(** [float(c)] for an int [c], as the rational it denotes: [c] rounded to
    the nearest double.  Beyond the largest double the conversion raises in
    Python; there the int is kept as it is. *)
Definition float_of_int (c : Z) : Q :=
  match round64 (inject_Z c) with
  | Fin r => r
  | _ => inject_Z c
  end.

(** [x * c] for a float [x] and an int [c]: the int is converted to a
    float, then the product is rounded. *)
Definition fscale (x : float) (c : Z) : float :=
  match x with
  | Fin q => round64 (q * float_of_int c)
  | PInf => match c ?= 0 with Gt => PInf | Lt => NInf | Eq => NaN end
  | NInf => match c ?= 0 with Gt => NInf | Lt => PInf | Eq => NaN end
  | NaN => NaN
  end.

(** [x + y] on floats. *)
Definition fadd (x y : float) : float :=
  match x, y with
  | Fin p, Fin q => round64 (p + q)
  | NaN, _ | _, NaN => NaN
  | PInf, NInf | NInf, PInf => NaN
  | PInf, _ | _, PInf => PInf
  | NInf, _ | _, NInf => NInf
  end.

End Py.

Notation "x <- c ;; k" := (Py.bind c (fun x => k))
  (at level 61, c at next level, right associativity).

(** ** The part of PuLP the program uses *)
Module Pulp.

(** The variables of the problem, by their LP names: ["Produce_" ++ name],
    ["Design_New_Product"] and ["New_Product_Units"]. *)
Inductive LpVariable : Set :=
| Produce (name : string)
| Design_New_Product
| New_Product_Units.

Inductive LpCategory : Set := Continuous | Integer | Binary.

Record LpVarDecl : Set := {
  lowBound : option Z;
  upBound : option Z;
  cat : LpCategory
}.

(** A linear expression: coefficients on variables and a constant. *)
Record LpAffineExpression : Set := {
  terms : list (LpVariable * Z);
  constant : Z
}.

(** [lhs <= rhs], with the name given when it was added to the problem. *)
Record LpConstraint : Set := {
  c_name : option string;
  c_lhs : LpAffineExpression;
  c_rhs : LpAffineExpression
}.

(** An [LpProblem] with sense [LpMaximize]. *)
Record LpProblem : Set := {
  variables : list (LpVariable * LpVarDecl);
  objective : LpAffineExpression;
  constraints : list LpConstraint
}.

(** An assignment of integers to the variables (every variable of the
    program is declared Integer or Binary). *)
Definition assignment : Type := LpVariable -> Z.

Fixpoint eval_terms (a : assignment) (ts : list (LpVariable * Z)) : Z :=
  match ts with
  | [] => 0
  | (v, c) :: ts' => c * a v + eval_terms a ts'
  end.

Definition eval (a : assignment) (e : LpAffineExpression) : Z :=
  constant e + eval_terms a (terms e).

Definition holds (a : assignment) (c : LpConstraint) : Prop :=
  eval a (c_lhs c) <= eval a (c_rhs c).

Definition in_domain (d : LpVarDecl) (z : Z) : Prop :=
  match lowBound d with Some l => l <= z | None => True end /\
  match upBound d with Some u => z <= u | None => True end /\
  match cat d with Binary => 0 <= z <= 1 | _ => True end.

Definition feasible (m : LpProblem) (a : assignment) : Prop :=
  Forall (fun vd => in_domain (snd vd) (a (fst vd))) (variables m) /\
  Forall (holds a) (constraints m).

(** [a] is a feasible point where the objective is maximal. *)
Definition optimal (m : LpProblem) (a : assignment) : Prop :=
  feasible m a /\
  forall b, feasible m b -> eval b (objective m) <= eval a (objective m).

(** The status codes of [pulp.constants] and the table [pulp.LpStatus]. *)
Definition LpStatusNotSolved : Z := 0.
Definition LpStatusOptimal : Z := 1.
Definition LpStatusInfeasible : Z := -1.
Definition LpStatusUnbounded : Z := -2.
Definition LpStatusUndefined : Z := -3.

Definition LpStatus : list (Z * string) :=
  [ (LpStatusNotSolved, "Not Solved"%string);
    (LpStatusOptimal, "Optimal"%string);
    (LpStatusInfeasible, "Infeasible"%string);
    (LpStatusUnbounded, "Unbounded"%string);
    (LpStatusUndefined, "Undefined"%string) ].

Fixpoint lookup (k : Z) (d : list (Z * string)) : option string :=
  match d with
  | [] => None
  | (k', s) :: d' => if Z.eqb k k' then Some s else lookup k d'
  end.

(** [d[k]] on a dict: a missing key raises [KeyError]. *)
Definition getitem (d : list (Z * string)) (k : Z) : Py.res string :=
  match lookup k d with
  | Some s => Py.Ok s
  | None => Py.Raise Py.KeyError
  end.

(** What a call of [prob.solve()] leaves behind: [prob.status] and the
    [varValue] of each variable ([None] when the solver assigned none). *)
Record Solved : Type := {
  status : Z;
  varValue : LpVariable -> option Py.float
}.

(** [pulp.value(e)]: [None] as soon as a variable of [e] has no value,
    otherwise the constant plus the sum of value times coefficient. *)
Fixpoint value_terms (s : Solved) (acc : Py.float) (ts : list (LpVariable * Z))
  : option Py.float :=
  match ts with
  | [] => Some acc
  | (v, c) :: ts' =>
      match varValue s v with
      | None => None
      | Some x => value_terms s (Py.fadd acc (Py.fscale x c)) ts'
      end
  end.

Definition value (s : Solved) (e : LpAffineExpression) : option Py.float :=
  value_terms s (Py.Fin (inject_Z (constant e))) (terms e).

(** The solved problem carries exactly the integers of [a]. *)
Definition assigns (m : LpProblem) (s : Solved) (a : assignment) : Prop :=
  forall v d, In (v, d) (variables m) ->
    varValue s v = Some (Py.Fin (inject_Z (a v))).

(** The contract of an exact MILP solver that terminates: it reports
    Optimal with a maximiser, Infeasible when no point is feasible, and
    Unbounded when feasible points exist but none is maximal. *)
Inductive milp_solved (m : LpProblem) (s : Solved) : Prop :=
| solved_optimal (a : assignment) :
    status s = LpStatusOptimal -> optimal m a -> assigns m s a ->
    milp_solved m s
| solved_infeasible :
    status s = LpStatusInfeasible -> (forall a, ~ feasible m a) ->
    milp_solved m s
| solved_unbounded :
    status s = LpStatusUnbounded -> (exists a, feasible m a) ->
    (forall a, feasible m a ->
       exists b, feasible m b /\ eval a (objective m) < eval b (objective m)) ->
    milp_solved m s.

End Pulp.

Import Pulp.

(** ** The class [FurnitureBusinessOptimization] *)

(** An entry of [self.products]. *)
Module Product.
Record t : Set := {
  profit_per_unit : Z;
  wood_hours_per_unit : Z;
  material_cost : Z;
  design_complexity : Z
}.
End Product.

(** [self.new_product_design]: five keys, none of them a cap on the number
    of units. *)
Module NewProduct.
Record t : Set := {
  design_hours_required : Z;
  prototype_cost : Z;
  estimated_profit_per_unit : Z;
  wood_hours_per_unit : Z;
  material_cost_per_unit : Z
}.
End NewProduct.

(** [self.manufacturing_capacity]. *)
Module Capacity.
Record t : Set := {
  wood_hours : Z;
  design_hours : Z;
  budget : Z
}.
End Capacity.

(** The state of an instance.  [products] keeps the insertion order of the
    Python dict. *)
Record FurnitureBusinessOptimization : Set := {
  manufacturing_capacity : Capacity.t;
  products : list (string * Product.t);
  new_product_design : NewProduct.t
}.

(** [__init__] *)
Definition init : FurnitureBusinessOptimization :=
  {| manufacturing_capacity :=
       {| Capacity.wood_hours := 1200;
          Capacity.design_hours := 400;
          Capacity.budget := 150000 |};
     products :=
       [ ("dining_table"%string,
          {| Product.profit_per_unit := 350;
             Product.wood_hours_per_unit := 8;
             Product.material_cost := 250;
             Product.design_complexity := 15 |});
         ("bookshelf"%string,
          {| Product.profit_per_unit := 250;
             Product.wood_hours_per_unit := 6;
             Product.material_cost := 180;
             Product.design_complexity := 10 |});
         ("office_chair"%string,
          {| Product.profit_per_unit := 200;
             Product.wood_hours_per_unit := 4;
             Product.material_cost := 150;
             Product.design_complexity := 8 |}) ];
     new_product_design :=
       {| NewProduct.design_hours_required := 100;
          NewProduct.prototype_cost := 5000;
          NewProduct.estimated_profit_per_unit := 275;
          NewProduct.wood_hours_per_unit := 5;
          NewProduct.material_cost_per_unit := 200 |} |}.

(** *** Building the problem (lines 47 to 103 of [optimize_business_strategy]) *)

(** [sum(self.products[name][key] * product_vars[name] for name in self.products)] *)
Definition product_sum (key : Product.t -> Z) (self : FurnitureBusinessOptimization)
  : list (LpVariable * Z) :=
  map (fun np => (Produce (fst np), key (snd np))) (products self).

Definition product_vars (self : FurnitureBusinessOptimization)
  : list (LpVariable * LpVarDecl) :=
  map (fun np => (Produce (fst np),
                  {| lowBound := Some 0; upBound := None; cat := Integer |}))
      (products self).

Definition design_new_product : LpVariable * LpVarDecl :=
  (Design_New_Product, {| lowBound := None; upBound := None; cat := Binary |}).

Definition new_product_units : LpVariable * LpVarDecl :=
  (New_Product_Units, {| lowBound := Some 0; upBound := None; cat := Integer |}).

Definition number (z : Z) : LpAffineExpression :=
  {| terms := []; constant := z |}.

Definition linear (ts : list (LpVariable * Z)) : LpAffineExpression :=
  {| terms := ts; constant := 0 |}.

(** ["Total_Profit"] *)
Definition total_profit_objective (self : FurnitureBusinessOptimization)
  : LpAffineExpression :=
  linear (product_sum Product.profit_per_unit self ++
          [ (Design_New_Product, - NewProduct.prototype_cost (new_product_design self));
            (New_Product_Units,
             NewProduct.estimated_profit_per_unit (new_product_design self)) ]).

Definition woodworking_hours_constraint (self : FurnitureBusinessOptimization)
  : LpConstraint :=
  {| c_name := Some "Woodworking_Hours_Constraint"%string;
     c_lhs := linear (product_sum Product.wood_hours_per_unit self ++
                      [ (New_Product_Units,
                         NewProduct.wood_hours_per_unit (new_product_design self)) ]);
     c_rhs := number (Capacity.wood_hours (manufacturing_capacity self)) |}.

Definition design_hours_constraint (self : FurnitureBusinessOptimization)
  : LpConstraint :=
  {| c_name := Some "Design_Hours_Constraint"%string;
     c_lhs := linear ((Design_New_Product,
                       NewProduct.design_hours_required (new_product_design self))
                      :: product_sum Product.design_complexity self);
     c_rhs := number (Capacity.design_hours (manufacturing_capacity self)) |}.

Definition budget_constraint (self : FurnitureBusinessOptimization)
  : LpConstraint :=
  {| c_name := Some "Budget_Constraint"%string;
     c_lhs := linear (product_sum Product.material_cost self ++
                      [ (Design_New_Product,
                         NewProduct.prototype_cost (new_product_design self));
                        (New_Product_Units,
                         NewProduct.material_cost_per_unit (new_product_design self)) ]);
     c_rhs := number (Capacity.budget (manufacturing_capacity self)) |}.

(** [prob += new_product_units <= 50 * design_new_product] *)
Definition new_product_constraint : LpConstraint :=
  {| c_name := None;
     c_lhs := linear [ (New_Product_Units, 1) ];
     c_rhs := linear [ (Design_New_Product, 50) ] |}.

Definition prob (self : FurnitureBusinessOptimization) : LpProblem :=
  {| variables := product_vars self ++ [ design_new_product; new_product_units ];
     objective := total_profit_objective self;
     constraints :=
       [ woodworking_hours_constraint self;
         design_hours_constraint self;
         budget_constraint self;
         new_product_constraint ] |}.

(** *** Preparing the results (lines 108 to 121) *)

Record results : Type := {
  r_status : string;
  r_total_profit : option Py.float;
  r_production_plan : list (string * Z);
  r_new_product_design : bool;
  r_new_product_units : Z
}.

(** [for name, var in product_vars.items(): plan[name] = int(var.varValue)] *)
Fixpoint production_plan (s : Solved) (ps : list (string * Product.t))
  : Py.res (list (string * Z)) :=
  match ps with
  | [] => Py.Ok []
  | (name, _) :: ps' =>
      n <- Py.int (varValue s (Produce name)) ;;
      plan <- production_plan s ps' ;;
      Py.Ok ((name, n) :: plan)
  end.

(** [optimize_business_strategy], with the outcome [s] of [prob.solve()]. *)
Definition optimize_business_strategy
  (self : FurnitureBusinessOptimization) (s : Solved) : Py.res results :=
  st <- getitem LpStatus (status s) ;;
  let profit := value s (objective (prob self)) in
  let approved := Py.truthy (varValue s Design_New_Product) in
  units <- (if Py.truthy (varValue s Design_New_Product)
            then Py.int (varValue s New_Product_Units)
            else Py.Ok 0) ;;
  plan <- production_plan s (products self) ;;
  Py.Ok {| r_status := st;
           r_total_profit := profit;
           r_production_plan := plan;
           r_new_product_design := approved;
           r_new_product_units := units |}.

(** ** Notions used in the statements *)

(** The sum of [f] over a list. *)
Fixpoint sumZ {A : Type} (f : A -> Z) (l : list A) : Z :=
  match l with
  | [] => 0
  | x :: l' => f x + sumZ f l'
  end.

(** [key] times the quantity produced, summed over [self.products]. *)
Definition over_products (key : Product.t -> Z)
  (self : FurnitureBusinessOptimization) (a : assignment) : Z :=
  sumZ (fun np => key (snd np) * a (Produce (fst np))) (products self).

(** What the four constraints and the declarations say, in arithmetic. *)
Record feasible_spec (self : FurnitureBusinessOptimization) (a : assignment)
  : Prop := {
  fs_produce : forall name p, In (name, p) (products self) -> 0 <= a (Produce name);
  fs_binary : 0 <= a Design_New_Product <= 1;
  fs_units : 0 <= a New_Product_Units;
  fs_wood :
    over_products Product.wood_hours_per_unit self a
    + NewProduct.wood_hours_per_unit (new_product_design self) * a New_Product_Units
    <= Capacity.wood_hours (manufacturing_capacity self);
  fs_design :
    NewProduct.design_hours_required (new_product_design self) * a Design_New_Product
    + over_products Product.design_complexity self a
    <= Capacity.design_hours (manufacturing_capacity self);
  fs_budget :
    over_products Product.material_cost self a
    + NewProduct.prototype_cost (new_product_design self) * a Design_New_Product
    + NewProduct.material_cost_per_unit (new_product_design self) * a New_Product_Units
    <= Capacity.budget (manufacturing_capacity self);
  fs_gate : a New_Product_Units <= 50 * a Design_New_Product
}.

(** The float of an integer. *)
Definition num (z : Z) : option Py.float := Some (Py.Fin (inject_Z z)).

(** [z] is [q] with its fractional part dropped: between 0 and [q], less
    than one away from [q]. *)
Definition integer_part (q : Q) (z : Z) : Prop :=
  (Qabs (inject_Z z) <= Qabs q /\ Qabs q < Qabs (inject_Z z) + 1 /\
   0 <= inject_Z z * q)%Q.

(** [z] is an integer nearest to [q]. *)
Definition nearest_integer (q : Q) (z : Z) : Prop :=
  (Qabs (q - inject_Z z) <= 1 # 2)%Q.



(** The same instance with other capacities. *)
Definition with_capacity (self : FurnitureBusinessOptimization) (c : Capacity.t)
  : FurnitureBusinessOptimization :=
  {| manufacturing_capacity := c;
     products := products self;
     new_product_design := new_product_design self |}.

(** One entry of the capacities is raised, the other two are kept. *)
Inductive raised : Capacity.t -> Capacity.t -> Prop :=
| raised_wood_hours w d b w' :
    w <= w' ->
    raised {| Capacity.wood_hours := w; Capacity.design_hours := d; Capacity.budget := b |}
           {| Capacity.wood_hours := w'; Capacity.design_hours := d; Capacity.budget := b |}
| raised_design_hours w d b d' :
    d <= d' ->
    raised {| Capacity.wood_hours := w; Capacity.design_hours := d; Capacity.budget := b |}
           {| Capacity.wood_hours := w; Capacity.design_hours := d'; Capacity.budget := b |}
| raised_budget w d b b' :
    b <= b' ->
    raised {| Capacity.wood_hours := w; Capacity.design_hours := d; Capacity.budget := b |}
           {| Capacity.wood_hours := w; Capacity.design_hours := d; Capacity.budget := b' |}.

(** An integer that a double holds exactly. *)
Definition double_int (z : Z) : Prop := Z.abs z <= 2 ^ 53.

(** The magnitudes of the terms of a sum at the integers [a], added up. *)
Fixpoint weight (a : assignment) (ts : list (LpVariable * Z)) : Z :=
  match ts with
  | [] => 0
  | (v, c) :: ts' => Z.abs (c * a v) + weight a ts'
  end.

(** The float sum that [pulp.value] makes of [e] at the integers [a] is
    exact: every coefficient is an integer a double holds, and so is every
    partial sum, since the magnitudes of the terms add up to at most
    [2 ^ 53]. *)
Definition sum_exact (a : assignment) (e : LpAffineExpression) : Prop :=
  Forall (fun vc => double_int (snd vc)) (terms e) /\
  Z.abs (constant e) + weight a (terms e) <= 2 ^ 53.

(** The total profit of every feasible plan is computed exactly. *)
Definition profit_exact (self : FurnitureBusinessOptimization) : Prop :=
  forall a, feasible (prob self) a -> sum_exact a (objective (prob self)).

(** ** Instances, assignments and solver outcomes used as examples *)

(** A plan that launches the new product: ten units of it, nothing else. *)
Definition launch_ten : assignment :=
  fun v =>
    match v with
    | Produce _ => 0
    | Design_New_Product => 1
    | New_Product_Units => 10
    end.

(** Solved problems of the default instance, given by the status code and
    the values of the five variables. *)
Definition solved (st : Z) (table shelf chair design units : option Py.float)
  : Solved :=
  {| status := st;
     varValue := fun v =>
       match v with
       | Produce name =>
           if String.eqb name "dining_table" then table
           else if String.eqb name "bookshelf" then shelf
           else if String.eqb name "office_chair" then chair
           else None
       | Design_New_Product => design
       | New_Product_Units => units
       end |}.

(** [3 - 2^-30], the float [2.9999999990686774]. *)
Definition almost_three : Q := 3221225471 # 1073741824.

Definition s_almost_three : Solved :=
  solved LpStatusOptimal (Some (Py.Fin almost_three)) (num 0) (num 0) (num 0) (num 0).

Definition r_almost_three : results :=
  {| r_status := "Optimal";
     r_total_profit := value s_almost_three (objective (prob init));
     r_production_plan :=
       [ ("dining_table", 2); ("bookshelf", 0); ("office_chair", 0) ]%string;
     r_new_product_design := false;
     r_new_product_units := 0 |}.

(** Infeasible, with no value on any variable. *)
Definition s_infeasible_none : Solved :=
  solved LpStatusInfeasible None None None None None.

(** Infeasible, with the values of a run that went further. *)
Definition s_infeasible_three : Solved :=
  solved LpStatusInfeasible (num 3) (num 3) (num 3) (num 0) (num 0).

Definition s_optimal_three : Solved :=
  solved LpStatusOptimal (num 3) (num 3) (num 3) (num 0) (num 0).

Definition r_three (st : string) : results :=
  {| r_status := st;
     r_total_profit := Some (Py.Fin (inject_Z 2400));
     r_production_plan :=
       [ ("dining_table", 3); ("bookshelf", 3); ("office_chair", 3) ]%string;
     r_new_product_design := false;
     r_new_product_units := 0 |}.


(** Not approved, yet with seven units on the units variable. *)
Definition s_unapproved_seven : Solved :=
  solved LpStatusOptimal (num 3) (num 3) (num 3) (num 0) (num 7).

Definition r_unapproved_seven : results :=
  {| r_status := "Optimal";
     r_total_profit := Some (Py.Fin (inject_Z 4325));
     r_production_plan :=
       [ ("dining_table", 3); ("bookshelf", 3); ("office_chair", 3) ]%string;
     r_new_product_design := false;
     r_new_product_units := 0 |}.










(** The default instance with no budget, and with the price of one chair. *)
Definition budget_zero : FurnitureBusinessOptimization :=
  with_capacity init
    {| Capacity.wood_hours := 1200; Capacity.design_hours := 400;
       Capacity.budget := 0 |}.


Definition produce_nothing : assignment := fun _ => 0.


Definition s_nothing : Solved :=
  solved LpStatusOptimal (num 0) (num 0) (num 0) (num 0) (num 0).


Definition r_nothing : results :=
  {| r_status := "Optimal";
     r_total_profit := Some (Py.Fin 0);
     r_production_plan :=
       [ ("dining_table", 0); ("bookshelf", 0); ("office_chair", 0) ]%string;
     r_new_product_design := false;
     r_new_product_units := 0 |}.

(** ** Notions used for the rest of the program *)

(** Every per-unit figure of a product is at least 0. *)
Definition product_nonneg (p : Product.t) : Prop :=
  0 <= Product.profit_per_unit p /\ 0 <= Product.wood_hours_per_unit p /\
  0 <= Product.material_cost p /\ 0 <= Product.design_complexity p.

Definition new_product_nonneg (n : NewProduct.t) : Prop :=
  0 <= NewProduct.design_hours_required n /\ 0 <= NewProduct.prototype_cost n /\
  0 <= NewProduct.estimated_profit_per_unit n /\
  0 <= NewProduct.wood_hours_per_unit n /\
  0 <= NewProduct.material_cost_per_unit n.

Definition nonneg_figures (self : FurnitureBusinessOptimization) : Prop :=
  Forall (fun np => product_nonneg (snd np)) (products self) /\
  new_product_nonneg (new_product_design self).


(** No capacity is negative. *)
Definition capacity_nonneg (c : Capacity.t) : Prop :=
  0 <= Capacity.wood_hours c /\ 0 <= Capacity.design_hours c /\
  0 <= Capacity.budget c.

(** The plan [a] with the approval withdrawn. *)
Definition without_approval (a : assignment) : assignment :=
  fun v =>
    match v with
    | Design_New_Product => 0
    | _ => a v
    end.


(** Thirty bookshelves and fifty units of the approved new product. *)
Definition shelves_and_launch : assignment :=
  fun v =>
    match v with
    | Produce name => if String.eqb name "bookshelf" then 30 else 0
    | Design_New_Product => 1
    | New_Product_Units => 50
    end.

Definition s_shelves_and_launch : Solved :=
  solved LpStatusOptimal (num 0) (num 30) (num 0) (num 1) (num 50).

Definition r_shelves_and_launch : results :=
  {| r_status := "Optimal";
     r_total_profit := Some (Py.Fin (inject_Z 16250));
     r_production_plan :=
       [ ("dining_table", 0); ("bookshelf", 30); ("office_chair", 0) ]%string;
     r_new_product_design := true;
     r_new_product_units := 50 |}.

(** Three of each product, no approval, seven units all the same. *)
Definition three_each_seven : assignment :=
  fun v =>
    match v with
    | Produce _ => 3
    | Design_New_Product => 0
    | New_Product_Units => 7
    end.

Definition wood_minus_one : Capacity.t :=
  {| Capacity.wood_hours := -1; Capacity.design_hours := 400;
     Capacity.budget := 150000 |}.

Definition wood_minus_two : Capacity.t :=
  {| Capacity.wood_hours := -2; Capacity.design_hours := 400;
     Capacity.budget := 150000 |}.

Definition design_hours_fifty : Capacity.t :=
  {| Capacity.wood_hours := 1200; Capacity.design_hours := 50;
     Capacity.budget := 150000 |}.


(** ** Text, printing and plotting *)

(** The string methods the report uses, on ASCII text: the case rules of
    [title] are those of the letters [a] to [z] and [A] to [Z], other
    characters are left as they are. *)
Module PyStr.

Definition is_upper (c : ascii) : bool :=
  (65 <=? nat_of_ascii c)%nat && (nat_of_ascii c <=? 90)%nat.

Definition is_lower (c : ascii) : bool :=
  (97 <=? nat_of_ascii c)%nat && (nat_of_ascii c <=? 122)%nat.

Definition is_cased (c : ascii) : bool := is_upper c || is_lower c.

Definition upper (c : ascii) : ascii :=
  if is_lower c then ascii_of_nat (nat_of_ascii c - 32) else c.

Definition lower (c : ascii) : ascii :=
  if is_upper c then ascii_of_nat (nat_of_ascii c + 32) else c.

(** Every character is below 128. *)
Definition ascii_text (s : string) : Prop :=
  Forall (fun c => (nat_of_ascii c < 128)%nat) (list_ascii_of_string s).

(** [s.replace(old, new)] for [old] and [new] of one character. *)
Fixpoint replace (old new : ascii) (s : string) : string :=
  match s with
  | EmptyString => EmptyString
  | String c s' =>
      String (if Ascii.eqb c old then new else c) (replace old new s')
  end.

(** [s.title()]: a letter that follows a letter is put in lower case, any
    other letter in upper case. *)
Fixpoint title_from (previous_is_cased : bool) (s : string) : string :=
  match s with
  | EmptyString => EmptyString
  | String c s' =>
      String (if previous_is_cased then lower c else upper c)
             (title_from (is_cased c) s')
  end.

Definition title (s : string) : string := title_from false s.

(** [str(z)] for an int. *)
Definition of_int (z : Z) : string := NilZero.string_of_int (Z.to_int z).

(** [str(b)] for a bool. *)
Definition of_bool (b : bool) : string :=
  if b then "True"%string else "False"%string.

Definition nl : string := String (ascii_of_nat 10) EmptyString.

End PyStr.

(** The calls of [matplotlib.pyplot] the program makes. *)
Inductive plt_call : Set :=
| plt_figure (width height : Z)
| plt_bar (x : list string) (height : list Z)
| plt_title (label : string)
| plt_xlabel (label : string)
| plt_ylabel (label : string)
| plt_xticks (rotation : Z)
| plt_text (x : nat) (y : Z) (s : string) (ha va : string)
| plt_tight_layout
| plt_savefig (fname : string)
| plt_close.

(** What a method does to the outside: a line it prints, a plot call. *)
Inductive effect : Set :=
| Print (line : string)
| Plt (call : plt_call).

(** A computation that leaves effects behind and returns or raises; the
    effects made before an exception stay. *)
Definition io (A : Type) : Type := list effect * Py.res A.

Definition io_ret {A : Type} (a : A) : io A := ([], Py.Ok a).

Definition io_bind {A B : Type} (c : io A) (k : A -> io B) : io B :=
  match c with
  | (out, Py.Ok a) => let (out', r) := k a in (out ++ out', r)
  | (out, Py.Raise e) => (out, Py.Raise e)
  end.

Definition lift {A : Type} (r : Py.res A) : io A := ([], r).

Definition print (line : string) : io unit := ([Print line], Py.Ok tt).

(** A plot call, taken to succeed: what matplotlib refuses (a bar as high
    as [2 ^ 63], say) is left out. *)
Definition plt (call : plt_call) : io unit := ([Plt call], Py.Ok tt).

Notation "x <~ c ;; k" := (io_bind c (fun x => k))
  (at level 61, c at next level, right associativity).
Notation "c ;;; k" := (io_bind c (fun _ => k))
  (at level 61, right associativity).

(** [for x in l: f(x)] *)
Fixpoint for_each {A : Type} (l : list A) (f : A -> io unit) : io unit :=
  match l with
  | [] => io_ret tt
  | x :: l' => f x ;;; for_each l' f
  end.

(** [enumerate(l)], counting from [i]. *)
Fixpoint enumerate_from {A : Type} (i : nat) (l : list A) : list (nat * A) :=
  match l with
  | [] => []
  | x :: l' => (i, x) :: enumerate_from (S i) l'
  end.

Definition enumerate {A : Type} (l : list A) : list (nat * A) :=
  enumerate_from 0 l.

(** [visualize_results] *)
Definition visualize_results (results : results) : io unit :=
  plt (plt_figure 10 6) ;;;
  let products := map fst (r_production_plan results) in
  let units := map snd (r_production_plan results) in
  plt (plt_bar products units) ;;;
  plt (plt_title "Optimal Production Plan") ;;;
  plt (plt_xlabel "Product") ;;;
  plt (plt_ylabel "Number of Units") ;;;
  plt (plt_xticks 45) ;;;
  for_each (enumerate units)
    (fun iv => plt (plt_text (fst iv) (snd iv) (PyStr.of_int (snd iv))
                      "center" "bottom")) ;;;
  plt plt_tight_layout ;;;
  plt (plt_savefig "production_plan.png") ;;;
  plt plt_close.

(** The name of a product as the report shows it. *)
Definition display_name (product : string) : string :=
  PyStr.title (PyStr.replace "_" " " product).

Section Report.

(** The text of [format(x, ",.2f")] for a float [x]; the digits it shows
    are not modelled. *)
Variable format_2f : Py.float -> string.

(** [f"{x:,.2f}"]: [None] does not take the format. *)
Definition format_profit (x : option Py.float) : Py.res string :=
  match x with
  | None => Py.Raise Py.TypeError
  | Some f => Py.Ok (format_2f f)
  end.

(** [run_optimization], with the outcome [s] of [prob.solve()]. *)
Definition run_optimization (self : FurnitureBusinessOptimization) (s : Solved)
  : io results :=
  results <~ lift (optimize_business_strategy self s) ;;
  print (PyStr.nl ++ "--- Furniture Business Optimization Results ---") ;;;
  print ("Optimization Status: " ++ r_status results) ;;;
  profit <~ lift (format_profit (r_total_profit results)) ;;
  print (PyStr.nl ++ "Total Projected Profit: $" ++ profit) ;;;
  print (PyStr.nl ++ "Production Plan:") ;;;
  for_each (r_production_plan results)
    (fun pu => print (display_name (fst pu) ++ ": "
                      ++ PyStr.of_int (snd pu) ++ " units")) ;;;
  print (PyStr.nl ++ "New Product Design:") ;;;
  print ("Design Approved: " ++ PyStr.of_bool (r_new_product_design results)) ;;;
  print ("New Product Units: " ++ PyStr.of_int (r_new_product_units results)) ;;;
  visualize_results results ;;;
  io_ret results.

End Report.

(** The lines printed and the plot calls made, in order. *)
Fixpoint printed (out : list effect) : list string :=
  match out with
  | [] => []
  | Print line :: out' => line :: printed out'
  | Plt _ :: out' => printed out'
  end.

Fixpoint plotted (out : list effect) : list plt_call :=
  match out with
  | [] => []
  | Print _ :: out' => plotted out'
  | Plt call :: out' => call :: plotted out'
  end.

(** Solved to optimality, but without a value on the two variables of the
    new product. *)
Definition s_no_design : Solved :=
  solved LpStatusOptimal (num 3) (num 3) (num 3) None None.

Definition r_no_design : results :=
  {| r_status := "Optimal";
     r_total_profit := None;
     r_production_plan :=
       [ ("dining_table", 3); ("bookshelf", 3); ("office_chair", 3) ]%string;
     r_new_product_design := false;
     r_new_product_units := 0 |}.

(** ** Sums over the product catalogue *)

Lemma eval_terms_app a ts us :
  eval_terms a (ts ++ us) = eval_terms a ts + eval_terms a us.
Proof.
  induction ts as [|[v c] ts IH]; simpl; [reflexivity | rewrite IH; ring].
Qed.

Lemma eval_product_sum key self a :
  eval_terms a (product_sum key self) = over_products key self a.
Proof.
  unfold product_sum, over_products.
  induction (products self) as [|[name p] ps IH]; simpl; [reflexivity|].
  now rewrite IH.
Qed.

Lemma eval_linear a ts : eval a (linear ts) = eval_terms a ts.
Proof. unfold eval; simpl; ring. Qed.

Lemma eval_number a z : eval a (number z) = z.
Proof. unfold eval; simpl; ring. Qed.

Lemma eval_objective self a :
  eval a (objective (prob self)) =
  over_products Product.profit_per_unit self a
  + NewProduct.estimated_profit_per_unit (new_product_design self) * a New_Product_Units
  - NewProduct.prototype_cost (new_product_design self) * a Design_New_Product.
Proof.
  simpl. unfold total_profit_objective.
  rewrite eval_linear, eval_terms_app, eval_product_sum. simpl. ring.
Qed.

Lemma holds_wood self a :
  holds a (woodworking_hours_constraint self) <->
  over_products Product.wood_hours_per_unit self a
  + NewProduct.wood_hours_per_unit (new_product_design self) * a New_Product_Units
  <= Capacity.wood_hours (manufacturing_capacity self).
Proof.
  unfold holds; simpl.
  rewrite eval_linear, eval_number, eval_terms_app, eval_product_sum; simpl.
  lia.
Qed.

Lemma holds_design self a :
  holds a (design_hours_constraint self) <->
  NewProduct.design_hours_required (new_product_design self) * a Design_New_Product
  + over_products Product.design_complexity self a
  <= Capacity.design_hours (manufacturing_capacity self).
Proof.
  unfold holds; simpl.
  rewrite eval_linear, eval_number; simpl. rewrite eval_product_sum.
  lia.
Qed.

Lemma holds_budget self a :
  holds a (budget_constraint self) <->
  over_products Product.material_cost self a
  + NewProduct.prototype_cost (new_product_design self) * a Design_New_Product
  + NewProduct.material_cost_per_unit (new_product_design self) * a New_Product_Units
  <= Capacity.budget (manufacturing_capacity self).
Proof.
  unfold holds; simpl.
  rewrite eval_linear, eval_number, eval_terms_app, eval_product_sum; simpl.
  lia.
Qed.

Lemma holds_gate a :
  holds a new_product_constraint <->
  a New_Product_Units <= 50 * a Design_New_Product.
Proof.
  unfold holds, new_product_constraint; cbn [c_lhs c_rhs].
  rewrite !eval_linear; cbn [eval_terms]. lia.
Qed.

Lemma product_vars_domain self a :
  Forall (fun vd => in_domain (snd vd) (a (fst vd))) (product_vars self) <->
  forall name p, In (name, p) (products self) -> 0 <= a (Produce name).
Proof.
  unfold product_vars. rewrite Forall_forall. split.
  - intros H name p Hin.
    specialize (H _ (in_map _ _ _ Hin)). apply H.
  - intros H vd Hin. apply in_map_iff in Hin as [[name p] [<- Hin]].
    simpl. unfold in_domain; simpl. split; [eapply H; eassumption | tauto].
Qed.

Lemma feasible_iff self a : feasible (prob self) a <-> feasible_spec self a.
Proof.
  unfold feasible; simpl. rewrite Forall_app, product_vars_domain.
  split.
  - intros [[Hp Hv] Hc].
    inversion Hv as [|? ? Hd Hv']; subst. inversion Hv' as [|? ? Hu _]; subst.
    inversion Hc as [|? ? Hw Hc1]; subst. inversion Hc1 as [|? ? Hdh Hc2]; subst.
    inversion Hc2 as [|? ? Hb Hc3]; subst. inversion Hc3 as [|? ? Hg _]; subst.
    unfold in_domain in Hd, Hu; simpl in Hd, Hu.
    constructor; try assumption; try tauto.
    + now apply holds_wood.
    + now apply holds_design.
    + now apply holds_budget.
    + now apply holds_gate.
  - intros [Hp Hd Hu Hw Hdh Hb Hg]. split; [split|].
    + assumption.
    + repeat constructor; simpl; tauto.
    + repeat constructor.
      * now apply holds_wood.
      * now apply holds_design.
      * now apply holds_budget.
      * now apply holds_gate.
Qed.

(** ** The model *)

Lemma launch_ten_feasible : feasible (prob init) launch_ten.
Proof.
  apply feasible_iff. constructor; unfold over_products; simpl; lia.
Qed.

(** C1: in every feasible solution of the problem built for any parameters,
    [new_product_units <= 50 * design_new_product]; in particular no unit of
    the new product is made when the binary is 0. *)
Theorem gating_invariant self a :
  feasible (prob self) a ->
  a New_Product_Units <= 50 * a Design_New_Product /\
  (a Design_New_Product = 0 -> a New_Product_Units = 0).
Proof.
  intros H. apply feasible_iff in H. destruct H. lia.
Qed.

Lemma gating_invariant_witness :
  launch_ten New_Product_Units <= 50 * launch_ten Design_New_Product /\
  (launch_ten Design_New_Product = 0 -> launch_ten New_Product_Units = 0).
Proof.
  apply (gating_invariant init launch_ten). exact launch_ten_feasible.
Defined.

Lemma in_product_sum_design key self c :
  ~ In (Design_New_Product, c) (product_sum key self).
Proof.
  unfold product_sum. intros H. apply in_map_iff in H as [np [E _]]. discriminate.
Qed.

Lemma in_product_sum_units key self c :
  ~ In (New_Product_Units, c) (product_sum key self).
Proof.
  unfold product_sum. intros H. apply in_map_iff in H as [np [E _]]. discriminate.
Qed.

(** C2: the objective is the profit of the existing products, plus the
    estimated profit per unit times the new-product units, minus the
    prototype (one-time design) cost times the approval binary: the binary
    carries the coefficient [- prototype_cost], the units variable carries
    only the estimated profit. *)
Theorem objective_total_profit self :
  (forall a,
     eval a (objective (prob self)) =
     over_products Product.profit_per_unit self a
     + NewProduct.estimated_profit_per_unit (new_product_design self)
       * a New_Product_Units
     - NewProduct.prototype_cost (new_product_design self)
       * a Design_New_Product) /\
  constant (objective (prob self)) = 0 /\
  (forall c, In (Design_New_Product, c) (terms (objective (prob self))) <->
             c = - NewProduct.prototype_cost (new_product_design self)) /\
  (forall c, In (New_Product_Units, c) (terms (objective (prob self))) <->
             c = NewProduct.estimated_profit_per_unit (new_product_design self)).
Proof.
  split; [exact (eval_objective self)|]. split; [reflexivity|].
  split; intros c; simpl; rewrite in_app_iff; simpl; split.
  - intros [H|[H|[H|[]]]]; [now apply in_product_sum_design in H | congruence | discriminate].
  - intros ->. right; left; reflexivity.
  - intros [H|[H|[H|[]]]]; [now apply in_product_sum_units in H | discriminate | congruence].
  - intros ->. right; right; left; reflexivity.
Qed.

(** C3: the budget constraint of the problem bounds by the budget the
    material cost of the existing products, plus the prototype cost times
    the approval binary, plus the material cost per unit times the
    new-product units. *)
Theorem budget_reserves_prototype_cost self :
  In (budget_constraint self) (constraints (prob self)) /\
  c_rhs (budget_constraint self)
  = number (Capacity.budget (manufacturing_capacity self)) /\
  (forall a,
     holds a (budget_constraint self) <->
     over_products Product.material_cost self a
     + NewProduct.prototype_cost (new_product_design self) * a Design_New_Product
     + NewProduct.material_cost_per_unit (new_product_design self)
       * a New_Product_Units
     <= Capacity.budget (manufacturing_capacity self)) /\
  (forall c, In (Design_New_Product, c) (terms (c_lhs (budget_constraint self))) <->
             c = NewProduct.prototype_cost (new_product_design self)).
Proof.
  split; [simpl; tauto|]. split; [reflexivity|].
  split; [exact (holds_budget self)|].
  intros c; simpl; rewrite in_app_iff; simpl; split.
  - intros [H|[H|[H|[]]]]; [now apply in_product_sum_design in H | congruence | discriminate].
  - intros ->. right; left; reflexivity.
Qed.

(** C10: whatever the parameters, the problem contains the one constraint
    [new_product_units <= 50 * design_new_product]; it is the only unnamed
    constraint, it is the same term for every instance, and the cap it
    puts on the units under approval is the literal 50. *)
Theorem new_product_cap_is_literal self :
  In new_product_constraint (constraints (prob self)) /\
  (forall c, In c (constraints (prob self)) -> c_name c = None ->
             c = new_product_constraint) /\
  c_lhs new_product_constraint = linear [ (New_Product_Units, 1) ] /\
  c_rhs new_product_constraint = linear [ (Design_New_Product, 50) ] /\
  (forall a, holds a new_product_constraint <->
             a New_Product_Units <= 50 * a Design_New_Product).
Proof.
  split; [simpl; tauto|]. split.
  - simpl. intros c [<-|[<-|[<-|[<-|[]]]]]; simpl; intros E;
      [discriminate | discriminate | discriminate | reflexivity].
  - split; [reflexivity|]. split; [reflexivity|]. exact holds_gate.
Qed.

(** ** The result mapper *)

Lemma trunc_integer_part q : integer_part q (Py.trunc q).
Proof.
  destruct q as [n d]. unfold integer_part, Py.trunc; cbn [Qnum Qden].
  assert (Hd : Z.pos d <> 0) by lia.
  pose proof (Z.quot_abs n (Z.pos d) Hd) as Habs.
  rewrite (Z.abs_eq (Z.pos d)) in Habs by lia.
  pose proof (Z.mul_quot_le (Z.abs n) (Z.pos d) (Z.abs_nonneg n) Hd) as Hle.
  pose proof (Z.mul_succ_quot_gt (Z.abs n) (Z.pos d) (Z.abs_nonneg n) eq_refl) as Hlt.
  rewrite Habs in Hle, Hlt.
  assert (Hs : 0 <= (n ÷ Z.pos d) * n).
  { destruct (Z.le_gt_cases 0 n) as [Hn|Hn].
    - pose proof (Z.quot_pos n (Z.pos d) Hn eq_refl). nia.
    - assert (Hq : n ÷ Z.pos d <= 0).
      { rewrite <- (Z.opp_involutive n) at 1. rewrite Z.quot_opp_l by lia.
        pose proof (Z.quot_pos (- n) (Z.pos d)). lia. }
      nia. }
  repeat split.
  - unfold Qle; simpl. lia.
  - unfold Qlt; simpl. lia.
  - unfold Qle; simpl. lia.
Qed.

Lemma trunc_inject_Z z : Py.trunc (inject_Z z) = z.
Proof. unfold Py.trunc; simpl. apply Z.quot_1_r. Qed.

Lemma int_ok x z :
  Py.int x = Py.Ok z -> exists q, x = Some (Py.Fin q) /\ z = Py.trunc q.
Proof.
  destruct x as [[q| | |]|]; simpl; intros E; try discriminate.
  injection E as <-. now exists q.
Qed.

(** The entries of the plan: one per product, in order, each the truncated
    value of the product's variable. *)
Lemma production_plan_ok s ps plan :
  production_plan s ps = Py.Ok plan ->
  map fst plan = map fst ps /\
  Forall (fun nz => exists q, varValue s (Produce (fst nz)) = Some (Py.Fin q) /\
                              snd nz = Py.trunc q) plan.
Proof.
  revert plan. induction ps as [|[name p] ps IH]; simpl; intros plan E.
  - injection E as <-. split; constructor.
  - destruct (Py.int (varValue s (Produce name))) as [n|e] eqn:En; [|discriminate].
    simpl in E.
    destruct (production_plan s ps) as [plan'|e] eqn:Ep; [|discriminate].
    simpl in E. injection E as <-.
    destruct (IH plan' eq_refl) as [Hk Hv]. split.
    + simpl. now rewrite Hk.
    + constructor; [|assumption]. simpl. now apply int_ok.
Qed.


Lemma production_plan_ext s s' ps :
  (forall v, varValue s v = varValue s' v) ->
  production_plan s ps = production_plan s' ps.
Proof.
  intros E. induction ps as [|[name p] ps IH]; simpl; [reflexivity|].
  now rewrite E, IH.
Qed.

(** What a returned dictionary tells about the run. *)
Lemma optimize_ok self s r :
  optimize_business_strategy self s = Py.Ok r ->
  lookup (status s) LpStatus = Some (r_status r) /\
  r_total_profit r = value s (objective (prob self)) /\
  r_new_product_design r = Py.truthy (varValue s Design_New_Product) /\
  (if Py.truthy (varValue s Design_New_Product)
   then Py.int (varValue s New_Product_Units)
   else Py.Ok 0) = Py.Ok (r_new_product_units r) /\
  production_plan s (products self) = Py.Ok (r_production_plan r).
Proof.
  unfold optimize_business_strategy, getitem.
  destruct (lookup (status s) LpStatus) as [st|]; [|discriminate]. simpl.
  destruct (if Py.truthy (varValue s Design_New_Product)
            then Py.int (varValue s New_Product_Units)
            else Py.Ok 0) as [units|e]; [|discriminate]. simpl.
  destruct (production_plan s (products self)) as [plan|e]; [|discriminate]. simpl.
  intros E. injection E as <-. simpl. tauto.
Qed.


(** C4, refuted as stated: for the value [3 - 2^-30] of the dining-table
    variable the plan holds 2, which is not a nearest integer (3 is). *)
Lemma int_does_not_round :
  optimize_business_strategy init s_almost_three = Py.Ok r_almost_three /\
  varValue s_almost_three (Produce "dining_table") = Some (Py.Fin almost_three) /\
  In ("dining_table"%string, 2) (r_production_plan r_almost_three) /\
  ~ nearest_integer almost_three 2 /\
  nearest_integer almost_three 3.
Proof.
  split; [reflexivity|]. split; [reflexivity|]. split; [simpl; tauto|]. split.
  - intros H. vm_compute in H. now apply H.
  - vm_compute. discriminate.
Qed.

(** C4, amended: every integer the mapper stores is [int] of the raw value,
    that is the raw value truncated toward zero; the plan has one entry per
    product, in the order of the catalogue, and the units of the new product
    are truncated the same way when the product is approved. *)
Theorem int_truncates self s r :
  optimize_business_strategy self s = Py.Ok r ->
  map fst (r_production_plan r) = map fst (products self) /\
  Forall (fun nz =>
            exists q, varValue s (Produce (fst nz)) = Some (Py.Fin q) /\
                      snd nz = Py.trunc q /\ integer_part q (snd nz))
         (r_production_plan r) /\
  (r_new_product_design r = true ->
   exists q, varValue s New_Product_Units = Some (Py.Fin q) /\
             r_new_product_units r = Py.trunc q /\
             integer_part q (r_new_product_units r)).
Proof.
  intros H. apply optimize_ok in H as (_ & _ & Hd & Hu & Hp).
  apply production_plan_ok in Hp as [Hk Hv].
  split; [assumption|]. split.
  - eapply Forall_impl; [|exact Hv]. intros nz [q [E ->]].
    exists q. auto using trunc_integer_part.
  - intros Ha. rewrite Hd in Ha. rewrite Ha in Hu.
    apply int_ok in Hu as [q [E ->]]. exists q. auto using trunc_integer_part.
Qed.

Lemma int_truncates_witness :
  map fst (r_production_plan r_almost_three) = map fst (products init) /\
  Forall (fun nz =>
            exists q, varValue s_almost_three (Produce (fst nz)) = Some (Py.Fin q) /\
                      snd nz = Py.trunc q /\ integer_part q (snd nz))
         (r_production_plan r_almost_three) /\
  (r_new_product_design r_almost_three = true ->
   exists q, varValue s_almost_three New_Product_Units = Some (Py.Fin q) /\
             r_new_product_units r_almost_three = Py.trunc q /\
             integer_part q (r_new_product_units r_almost_three)).
Proof.
  apply (int_truncates init s_almost_three r_almost_three). reflexivity.
Defined.

(** C5, refuted as stated: with status Infeasible and no values the run
    raises, and with status Infeasible and finite values the plan holds
    those values, not zeros. *)
Lemma non_optimal_plan_not_zeroed :
  (status s_infeasible_none <> LpStatusOptimal /\
   (forall v, varValue s_infeasible_none v = None) /\
   optimize_business_strategy init s_infeasible_none = Py.Raise Py.TypeError) /\
  (status s_infeasible_three <> LpStatusOptimal /\
   optimize_business_strategy init s_infeasible_three
   = Py.Ok (r_three "Infeasible") /\
   In ("dining_table"%string, 3) (r_production_plan (r_three "Infeasible"))).
Proof.
  split; split; try discriminate.
  - split; [|reflexivity]. intros [name| |]; simpl; [|reflexivity|reflexivity].
    now repeat destruct (String.eqb name _).
  - split; [reflexivity | simpl; tauto].
Qed.

Lemma value_terms_ext s s' acc ts :
  (forall v, varValue s' v = varValue s v) ->
  value_terms s' acc ts = value_terms s acc ts.
Proof.
  intros E. revert acc. induction ts as [|[v c] ts IH]; intros acc; simpl.
  - reflexivity.
  - rewrite E. destruct (varValue s v); [apply IH | reflexivity].
Qed.

(** C5, amended: the mapper fills the plan from the raw values alone and
    never looks at the status.  What a run reports for some values (under
    Optimal, say) it reports unchanged for the same values under any other
    status of the table; only the status field differs. *)
Theorem plan_ignores_status self s s' r st' :
  (forall v, varValue s' v = varValue s v) ->
  optimize_business_strategy self s = Py.Ok r ->
  lookup (status s') LpStatus = Some st' ->
  optimize_business_strategy self s'
  = Py.Ok {| r_status := st';
             r_total_profit := r_total_profit r;
             r_production_plan := r_production_plan r;
             r_new_product_design := r_new_product_design r;
             r_new_product_units := r_new_product_units r |}.
Proof.
  intros E H Hst. apply optimize_ok in H as (_ & Hv & Hd & Hu & Hp).
  unfold optimize_business_strategy, getitem. rewrite Hst; simpl.
  rewrite !E, Hu; simpl.
  rewrite (production_plan_ext s' s) by exact E. rewrite Hp; simpl.
  rewrite Hv, Hd. unfold value. now rewrite (value_terms_ext s s') by exact E.
Qed.

Lemma plan_ignores_status_witness :
  optimize_business_strategy init s_infeasible_three
  = Py.Ok {| r_status := "Infeasible";
             r_total_profit := r_total_profit (r_three "Optimal");
             r_production_plan := r_production_plan (r_three "Optimal");
             r_new_product_design := r_new_product_design (r_three "Optimal");
             r_new_product_units := r_new_product_units (r_three "Optimal") |}.
Proof.
  apply (plan_ignores_status init s_optimal_three s_infeasible_three
           (r_three "Optimal") "Infeasible");
    reflexivity.
Defined.


(** C7: in every returned dictionary the units of the new product are 0
    when the product is not approved, whatever value the solver left on the
    units variable. *)
Theorem unapproved_units_zero self s r :
  optimize_business_strategy self s = Py.Ok r ->
  r_new_product_design r = false ->
  r_new_product_units r = 0.
Proof.
  intros H Ha. apply optimize_ok in H as (_ & _ & Hd & Hu & _).
  rewrite Hd in Ha. rewrite Ha in Hu. now injection Hu as <-.
Qed.

Lemma unapproved_units_zero_witness :
  varValue s_unapproved_seven New_Product_Units = num 7 /\
  r_new_product_units r_unapproved_seven = 0.
Proof.
  split; [reflexivity|].
  apply (unapproved_units_zero init s_unapproved_seven r_unapproved_seven);
    reflexivity.
Defined.

(** ** Runs on an exactly solved problem *)

Lemma truthy_num z : Py.truthy (num z) = negb (z =? 0).
Proof.
  unfold num, Py.truthy, Qeq_bool; simpl. now rewrite Z.mul_1_r.
Qed.

Lemma int_num z : Py.int (num z) = Py.Ok z.
Proof. unfold num, Py.int. now rewrite trunc_inject_Z. Qed.

(** *** Integers in floats *)

Lemma nearest_even_1 n : Py.nearest_even n 1 = n.
Proof.
  unfold Py.nearest_even. rewrite Z.mod_1_r, Z.div_1_r. reflexivity.
Qed.

Lemma ilog2_int n : 0 < n -> Py.ilog2 n 1 = Z.log2 n.
Proof.
  intros Hn. unfold Py.ilog2. change (Z.log2 1) with 0. rewrite Z.sub_0_r.
  pose proof (Z.log2_nonneg n) as Hk.
  unfold Py.scale2. destruct (Z.leb_spec 0 (Z.log2 n)); [|lia].
  rewrite Z.mul_1_l.
  destruct (Z.leb_spec (2 ^ Z.log2 n) n) as [|Hlt]; [reflexivity|].
  pose proof (Z.log2_spec n Hn). lia.
Qed.

Lemma Qred_scaled n j :
  0 <= j -> Qred (n * 2 ^ j # Z.to_pos (2 ^ j)) = inject_Z n.
Proof.
  intros Hj.
  assert (Hp : 0 < 2 ^ j) by (apply Z.pow_pos_nonneg; lia).
  rewrite <- (Qcanon.Qred_identity (inject_Z n)).
  - apply Qred_complete. unfold Qeq, inject_Z; simpl.
    rewrite Z2Pos.id by assumption. ring.
  - simpl. apply Z.gcd_1_r.
Qed.

(** Rounding leaves the integers up to [2 ^ 53] as they are. *)
Lemma round_mag_int n :
  0 < n <= 2 ^ 53 -> Py.round_mag n 1 = Some (inject_Z n).
Proof.
  intros [Hn Hle]. unfold Py.round_mag. rewrite ilog2_int by assumption.
  pose proof (Z.log2_nonneg n) as Hk.
  pose proof (Z.log2_spec n Hn) as [Hlo Hhi].
  assert (Hk53 : Z.log2 n <= 53).
  { destruct (Z.le_gt_cases (Z.log2 n) 53) as [|Hgt]; [assumption|].
    exfalso. assert (2 ^ 54 <= 2 ^ Z.log2 n) by (apply Z.pow_le_mono_r; lia).
    assert (2 ^ 53 < 2 ^ 54) by (apply Z.pow_lt_mono_r; lia). lia. }
  rewrite Z.max_r by lia.
  unfold Py.scale2.
  destruct (Z.leb_spec 0 (Z.log2 n - 52)) as [He|He].
  - assert (Hcase : Z.log2 n = 52 \/ Z.log2 n = 53) by lia.
    destruct Hcase as [E|E]; rewrite E in *.
    + change (52 - 52) with 0. change (2 ^ 0) with 1.
      rewrite nearest_even_1, Z.mul_1_r.
      destruct (Z.leb_spec (2 ^ 1024) n) as [Hov|]; [|reflexivity].
      exfalso. assert (2 ^ 53 < 2 ^ 1024) by (apply Z.pow_lt_mono_r; lia). lia.
    + assert (En : n = 2 ^ 53) by lia. subst n.
      vm_compute. reflexivity.
  - rewrite nearest_even_1.
    replace (- (Z.log2 n - 52)) with (52 - Z.log2 n) by lia.
    rewrite Qred_scaled by lia. reflexivity.
Qed.

Lemma round64_int z :
  double_int z -> Py.round64 (inject_Z z) = Py.Fin (inject_Z z).
Proof.
  unfold double_int. intros Hz. unfold Py.round64. simpl.
  destruct z as [|p|p]; [reflexivity| |].
  - rewrite round_mag_int; [reflexivity | simpl in Hz; lia].
  - rewrite round_mag_int; [reflexivity | simpl in Hz; lia].
Qed.

Lemma float_of_int_exact c : double_int c -> Py.float_of_int c = inject_Z c.
Proof. intros Hc. unfold Py.float_of_int. now rewrite round64_int. Qed.

Lemma fscale_num z c :
  double_int c -> double_int (z * c) ->
  Py.fscale (Py.Fin (inject_Z z)) c = Py.Fin (inject_Z (z * c)).
Proof.
  intros Hc Hzc. unfold Py.fscale. rewrite float_of_int_exact by assumption.
  change (inject_Z z * inject_Z c)%Q with (inject_Z (z * c)).
  now apply round64_int.
Qed.


Lemma fadd_num x y :
  double_int (x + y) ->
  Py.fadd (Py.Fin (inject_Z x)) (Py.Fin (inject_Z y)) = Py.Fin (inject_Z (x + y)).
Proof.
  intros H. unfold Py.fadd.
  replace (inject_Z x + inject_Z y)%Q with (inject_Z (x + y)).
  - now apply round64_int.
  - unfold Qplus, inject_Z; simpl. now rewrite !Z.mul_1_r.
Qed.

Lemma weight_nonneg a ts : 0 <= weight a ts.
Proof. induction ts as [|[v c] ts IH]; simpl; lia. Qed.

(** [pulp.value] on integers, where the float sum is exact. *)
Lemma value_terms_exact s a ts acc :
  (forall v c, In (v, c) ts -> varValue s v = num (a v)) ->
  Forall (fun vc => double_int (snd vc)) ts ->
  Z.abs acc + weight a ts <= 2 ^ 53 ->
  value_terms s (Py.Fin (inject_Z acc)) ts
  = Some (Py.Fin (inject_Z (acc + eval_terms a ts))).
Proof.
  revert acc. induction ts as [|[v c] ts IH]; intros acc H Hc Hw;
    cbn [value_terms eval_terms weight] in *.
  - now rewrite Z.add_0_r.
  - inversion Hc as [|? ? Hcv Hc']; subst. simpl in Hcv.
    pose proof (weight_nonneg a ts) as Hn.
    rewrite (H v c (or_introl eq_refl)). unfold num.
    rewrite fscale_num; [|assumption | unfold double_int; lia].
    rewrite fadd_num by (unfold double_int; lia).
    rewrite IH.
    + do 3 f_equal. ring.
    + intros v' c' Hin. apply (H v' c'). now right.
    + assumption.
    + lia.
Qed.


(** Every variable of the objective is declared in the problem. *)
Lemma objective_vars_declared self v c :
  In (v, c) (terms (objective (prob self))) ->
  exists d, In (v, d) (variables (prob self)).
Proof.
  simpl. rewrite in_app_iff. intros [H|[H|[H|[]]]].
  - unfold product_sum in H. apply in_map_iff in H as [np [E Hin]].
    injection E as <- _. eexists. apply in_or_app; left.
    unfold product_vars. apply in_map_iff. exists np. split; [reflexivity|assumption].
  - injection H as <- _. eexists. apply in_or_app; right. left; reflexivity.
  - injection H as <- _. eexists. apply in_or_app; right. right; left; reflexivity.
Qed.

Lemma production_plan_exact s a ps :
  (forall name p, In (name, p) ps -> varValue s (Produce name) = num (a (Produce name))) ->
  production_plan s ps
  = Py.Ok (map (fun np => (fst np, a (Produce (fst np)))) ps).
Proof.
  induction ps as [|[name p] ps IH]; intros H; simpl; [reflexivity|].
  rewrite (H name p (or_introl eq_refl)), int_num; simpl.
  rewrite IH; [reflexivity|]. intros n' p' Hin. apply (H n' p'). now right.
Qed.

(** The dictionary returned when the solved problem carries the integers
    of [a]. *)
Lemma optimize_assigned self s a st :
  lookup (status s) LpStatus = Some st ->
  assigns (prob self) s a ->
  optimize_business_strategy self s
  = Py.Ok {| r_status := st;
             r_total_profit := value s (objective (prob self));
             r_production_plan :=
               map (fun np => (fst np, a (Produce (fst np)))) (products self);
             r_new_product_design := negb (a Design_New_Product =? 0);
             r_new_product_units :=
               if a Design_New_Product =? 0 then 0 else a New_Product_Units |}.
Proof.
  intros Hst Ha.
  assert (Hd : varValue s Design_New_Product = num (a Design_New_Product)).
  { eapply Ha. simpl. apply in_or_app; right. left; reflexivity. }
  assert (Hu : varValue s New_Product_Units = num (a New_Product_Units)).
  { eapply Ha. simpl. apply in_or_app; right. right; left; reflexivity. }
  assert (Hp : forall name p, In (name, p) (products self) ->
                 varValue s (Produce name) = num (a (Produce name))).
  { intros name p Hin. eapply Ha. simpl. apply in_or_app; left.
    unfold product_vars. apply in_map_iff. exists (name, p).
    split; [reflexivity | assumption]. }
  unfold optimize_business_strategy, getitem. rewrite Hst.
  cbn [Py.bind]. rewrite Hd, Hu, truthy_num, int_num.
  rewrite (production_plan_exact s a) by exact Hp.
  destruct (a Design_New_Product =? 0); reflexivity.
Qed.

(** The total profit is the objective at [a] when the float sum is exact. *)
Lemma value_exact self s a :
  assigns (prob self) s a ->
  sum_exact a (objective (prob self)) ->
  value s (objective (prob self))
  = Some (Py.Fin (inject_Z (eval a (objective (prob self))))).
Proof.
  intros Ha [Hc Hw]. unfold value, eval.
  apply value_terms_exact; try assumption.
  intros v c Hin. destruct (objective_vars_declared self v c Hin) as [d Hd].
  exact (Ha v d Hd).
Qed.

Lemma optimize_exact self s a st :
  lookup (status s) LpStatus = Some st ->
  assigns (prob self) s a ->
  sum_exact a (objective (prob self)) ->
  exists q,
    (q == inject_Z (eval a (objective (prob self))))%Q /\
    optimize_business_strategy self s
    = Py.Ok {| r_status := st;
               r_total_profit := Some (Py.Fin q);
               r_production_plan :=
                 map (fun np => (fst np, a (Produce (fst np)))) (products self);
               r_new_product_design := negb (a Design_New_Product =? 0);
               r_new_product_units :=
                 if a Design_New_Product =? 0 then 0 else a New_Product_Units |}.
Proof.
  intros Hst Ha He. eexists. split; [reflexivity|].
  rewrite (optimize_assigned self s a st Hst Ha).
  now rewrite (value_exact self s a Ha He).
Qed.

(** ** Capacities *)

Lemma raised_le c c' :
  raised c c' ->
  Capacity.wood_hours c <= Capacity.wood_hours c' /\
  Capacity.design_hours c <= Capacity.design_hours c' /\
  Capacity.budget c <= Capacity.budget c'.
Proof. intros []; simpl; lia. Qed.

(** Raising a capacity keeps every feasible point feasible. *)
Lemma feasible_raised self c' a :
  raised (manufacturing_capacity self) c' ->
  feasible (prob self) a -> feasible (prob (with_capacity self c')) a.
Proof.
  intros Hr H. apply raised_le in Hr as (Hw & Hd & Hb).
  apply feasible_iff in H. destruct H. apply feasible_iff.
  constructor; unfold over_products in *; simpl; try assumption; lia.
Qed.


(** Two different status codes for one solved problem. *)
Ltac status_clash E E' :=
  exfalso; rewrite E in E'; vm_compute in E'; discriminate E'.

#[local] Arguments Z.mul : simpl never.
#[local] Arguments Z.add : simpl never.








(** The feasible points of the default catalogue, spelled out. *)
Lemma feasible_init_catalogue c a :
  feasible (prob (with_capacity init c)) a <->
  0 <= a (Produce "dining_table") /\ 0 <= a (Produce "bookshelf") /\
  0 <= a (Produce "office_chair") /\
  0 <= a Design_New_Product <= 1 /\ 0 <= a New_Product_Units /\
  8 * a (Produce "dining_table") + 6 * a (Produce "bookshelf")
  + 4 * a (Produce "office_chair") + 5 * a New_Product_Units
  <= Capacity.wood_hours c /\
  100 * a Design_New_Product + 15 * a (Produce "dining_table")
  + 10 * a (Produce "bookshelf") + 8 * a (Produce "office_chair")
  <= Capacity.design_hours c /\
  250 * a (Produce "dining_table") + 180 * a (Produce "bookshelf")
  + 150 * a (Produce "office_chair") + 5000 * a Design_New_Product
  + 200 * a New_Product_Units <= Capacity.budget c /\
  a New_Product_Units <= 50 * a Design_New_Product.
Proof.
  rewrite feasible_iff. split.
  - intros [Hp Hd Hu Hw Hdh Hb Hg]. unfold over_products in *. simpl in *.
    pose proof (Hp "dining_table"%string _ (or_introl eq_refl)).
    pose proof (Hp "bookshelf"%string _ (or_intror (or_introl eq_refl))).
    pose proof (Hp "office_chair"%string _
                  (or_intror (or_intror (or_introl eq_refl)))).
    lia.
  - intros H. constructor; unfold over_products; simpl; try lia.
    intros name p [E|[E|[E|[]]]]; injection E as <- _; lia.
Qed.

Lemma objective_init_catalogue c a :
  eval a (objective (prob (with_capacity init c))) =
  350 * a (Produce "dining_table") + 250 * a (Produce "bookshelf")
  + 200 * a (Produce "office_chair") + 275 * a New_Product_Units
  - 5000 * a Design_New_Product.
Proof. rewrite eval_objective. unfold over_products; simpl. lia. Qed.

Lemma assigns_solved c st a :
  assigns (prob (with_capacity init c))
    (solved st (num (a (Produce "dining_table"))) (num (a (Produce "bookshelf")))
       (num (a (Produce "office_chair"))) (num (a Design_New_Product))
       (num (a New_Product_Units))) a.
Proof.
  intros v d. simpl.
  intros [E|[E|[E|[E|[E|[]]]]]]; injection E as <- _; reflexivity.
Qed.

Lemma assigns_init_catalogue c s a :
  assigns (prob (with_capacity init c)) s a ->
  varValue s (Produce "dining_table") = num (a (Produce "dining_table")) /\
  varValue s (Produce "bookshelf") = num (a (Produce "bookshelf")) /\
  varValue s (Produce "office_chair") = num (a (Produce "office_chair")) /\
  varValue s Design_New_Product = num (a Design_New_Product) /\
  varValue s New_Product_Units = num (a New_Product_Units).
Proof.
  intros H. repeat split; eapply H; simpl.
  - left; reflexivity.
  - right; left; reflexivity.
  - do 2 right; left; reflexivity.
  - do 3 right; left; reflexivity.
  - do 4 right; left; reflexivity.
Qed.

(** Without budget nothing can be produced. *)
Lemma budget_zero_feasible a :
  feasible (prob budget_zero) a <->
  a (Produce "dining_table") = 0 /\ a (Produce "bookshelf") = 0 /\
  a (Produce "office_chair") = 0 /\
  a Design_New_Product = 0 /\ a New_Product_Units = 0.
Proof.
  unfold budget_zero. rewrite feasible_init_catalogue. simpl. lia.
Qed.

Lemma nothing_solves_budget_zero : milp_solved (prob budget_zero) s_nothing.
Proof.
  apply (solved_optimal _ _ produce_nothing).
  - reflexivity.
  - split.
    + apply budget_zero_feasible. now unfold produce_nothing.
    + intros b Hb. apply budget_zero_feasible in Hb.
      unfold budget_zero. rewrite !objective_init_catalogue.
      unfold produce_nothing. lia.
  - exact (assigns_solved _ LpStatusOptimal produce_nothing).
Qed.


(** With the default catalogue and at most [2 ^ 40] wood hours, the float
    sum of the objective is exact on every feasible plan. *)
Lemma init_catalogue_exact c :
  Capacity.wood_hours c <= 2 ^ 40 -> profit_exact (with_capacity init c).
Proof.
  intros Hc a Hf. apply feasible_init_catalogue in Hf. split.
  - repeat constructor; unfold double_int; simpl; lia.
  - cbn [objective prob total_profit_objective linear terms constant
         product_sum map fst snd app weight products init with_capacity
         new_product_design Product.profit_per_unit
         NewProduct.prototype_cost NewProduct.estimated_profit_per_unit].
    change (2 ^ 40) with 1099511627776 in Hc.
    change (2 ^ 53) with 9007199254740992. lia.
Qed.

Lemma init_exact a :
  feasible (prob init) a -> sum_exact a (objective (prob init)).
Proof.
  intros Hf.
  apply (init_catalogue_exact (manufacturing_capacity init)); [simpl; lia|].
  exact Hf.
Qed.


(** C9: the default parameters with budget 0.  Producing nothing is
    feasible, so an exact solver reports Optimal, and the run returns
    status Optimal, a plan of zeros, no approval, zero units of the new
    product and total profit 0. *)
Theorem budget_zero_run s :
  milp_solved (prob budget_zero) s ->
  feasible (prob budget_zero) produce_nothing /\
  optimize_business_strategy budget_zero s = Py.Ok r_nothing.
Proof.
  intros Hs.
  assert (H0 : feasible (prob budget_zero) produce_nothing).
  { apply budget_zero_feasible. now unfold produce_nothing. }
  split; [exact H0|].
  destruct Hs as [a Est [Hf _] Ha | _ Hno | _ _ Hup].
  - apply budget_zero_feasible in Hf as (E1 & E2 & E3 & E4 & E5).
    apply assigns_init_catalogue in Ha as (V1 & V2 & V3 & V4 & V5).
    rewrite E1 in V1. rewrite E2 in V2. rewrite E3 in V3.
    rewrite E4 in V4. rewrite E5 in V5.
    unfold optimize_business_strategy, getitem, value. rewrite Est.
    cbn [lookup LpStatus Z.eqb LpStatusOptimal LpStatusNotSolved Py.bind].
    cbn [production_plan products budget_zero with_capacity init
         objective prob total_profit_objective linear terms constant
         product_sum map fst snd app value_terms new_product_design
         Product.profit_per_unit NewProduct.prototype_cost
         NewProduct.estimated_profit_per_unit].
    rewrite V1, V2, V3, V4, V5. reflexivity.
  - exfalso. exact (Hno _ H0).
  - exfalso. destruct (Hup _ H0) as [b [Hb Hlt]].
    apply budget_zero_feasible in Hb. unfold budget_zero in Hlt.
    rewrite !objective_init_catalogue in Hlt. unfold produce_nothing in Hlt. lia.
Qed.

Lemma budget_zero_run_witness :
  feasible (prob budget_zero) produce_nothing /\
  optimize_business_strategy budget_zero s_nothing = Py.Ok r_nothing.
Proof.
  apply (budget_zero_run s_nothing). exact nothing_solves_budget_zero.
Defined.

(** ** More on the model *)

Lemma sumZ_nonneg {A : Type} (f : A -> Z) (l : list A) :
  Forall (fun x => 0 <= f x) l -> 0 <= sumZ f l.
Proof.
  induction 1 as [|x l Hx _ IH]; simpl; lia.
Qed.

Lemma over_products_nonneg key self a :
  Forall (fun np => 0 <= key (snd np)) (products self) ->
  (forall name p, In (name, p) (products self) -> 0 <= a (Produce name)) ->
  0 <= over_products key self a.
Proof.
  intros Hk Ha. unfold over_products. apply sumZ_nonneg.
  rewrite Forall_forall in *. intros [name p] Hin. simpl.
  specialize (Hk _ Hin). specialize (Ha _ _ Hin). simpl in Hk. nia.
Qed.

Lemma over_products_nothing key self :
  over_products key self produce_nothing = 0.
Proof.
  unfold over_products, produce_nothing.
  induction (products self) as [|np ps IH]; simpl; lia.
Qed.

Lemma over_products_without_approval key self a :
  over_products key self (without_approval a) = over_products key self a.
Proof. reflexivity. Qed.

Lemma nonneg_key self :
  nonneg_figures self ->
  Forall (fun np => 0 <= Product.profit_per_unit (snd np)) (products self) /\
  Forall (fun np => 0 <= Product.wood_hours_per_unit (snd np)) (products self) /\
  Forall (fun np => 0 <= Product.material_cost (snd np)) (products self) /\
  Forall (fun np => 0 <= Product.design_complexity (snd np)) (products self).
Proof.
  intros [H _]. repeat split; eapply Forall_impl; try exact H;
    intros np Hp; apply Hp.
Qed.

(** X1: the woodworking constraint is in the problem and bounds by the
    wood hours the wood used by the products plus the wood used by the
    units of the new product; the approval binary does not occur in it. *)
Theorem woodworking_hours_usage self :
  In (woodworking_hours_constraint self) (constraints (prob self)) /\
  (forall a,
     holds a (woodworking_hours_constraint self) <->
     over_products Product.wood_hours_per_unit self a
     + NewProduct.wood_hours_per_unit (new_product_design self)
       * a New_Product_Units
     <= Capacity.wood_hours (manufacturing_capacity self)) /\
  (forall c, ~ In (Design_New_Product, c)
                 (terms (c_lhs (woodworking_hours_constraint self)))).
Proof.
  split; [simpl; tauto|]. split; [exact (holds_wood self)|].
  intros c; simpl; rewrite in_app_iff; simpl.
  intros [H|[H|[]]]; [now apply in_product_sum_design in H | discriminate].
Qed.

(** X2: the design-hours constraint is in the problem and bounds by the
    design hours the hours required by the new design, counted once through
    the approval binary, plus the design complexity of the products; the
    number of new-product units does not occur in it. *)
Theorem design_hours_usage self :
  In (design_hours_constraint self) (constraints (prob self)) /\
  (forall a,
     holds a (design_hours_constraint self) <->
     NewProduct.design_hours_required (new_product_design self)
       * a Design_New_Product
     + over_products Product.design_complexity self a
     <= Capacity.design_hours (manufacturing_capacity self)) /\
  (forall c, In (Design_New_Product, c)
               (terms (c_lhs (design_hours_constraint self))) <->
             c = NewProduct.design_hours_required (new_product_design self)) /\
  (forall c, ~ In (New_Product_Units, c)
                 (terms (c_lhs (design_hours_constraint self)))).
Proof.
  split; [simpl; tauto|]. split; [exact (holds_design self)|]. split.
  - intros c; simpl; split.
    + intros [H|H]; [congruence | now apply in_product_sum_design in H].
    + intros ->. now left.
  - intros c; simpl.
    intros [H|H]; [discriminate | now apply in_product_sum_units in H].
Qed.

(** X3: in every feasible solution each product of the catalogue is made
    in a non-negative quantity, the approval is 0 or 1, and the units of the
    new product lie between 0 and 50 and are positive only under approval. *)
Theorem variable_domains self a :
  feasible (prob self) a ->
  (forall name p, In (name, p) (products self) -> 0 <= a (Produce name)) /\
  (a Design_New_Product = 0 \/ a Design_New_Product = 1) /\
  0 <= a New_Product_Units <= 50 /\
  (0 < a New_Product_Units -> a Design_New_Product = 1).
Proof.
  intros H. apply feasible_iff in H. destruct H as [Hp Hd Hu _ _ _ Hg].
  split; [exact Hp | lia].
Qed.

Lemma variable_domains_witness :
  (forall name p, In (name, p) (products init) -> 0 <= launch_ten (Produce name)) /\
  (launch_ten Design_New_Product = 0 \/ launch_ten Design_New_Product = 1) /\
  0 <= launch_ten New_Product_Units <= 50 /\
  (0 < launch_ten New_Product_Units -> launch_ten Design_New_Product = 1).
Proof.
  apply (variable_domains init launch_ten). exact launch_ten_feasible.
Defined.

(** X4: producing nothing is feasible exactly when no capacity is
    negative. *)
Theorem nothing_feasible_iff self :
  feasible (prob self) produce_nothing <->
  capacity_nonneg (manufacturing_capacity self).
Proof.
  rewrite feasible_iff. unfold capacity_nonneg. split.
  - intros [_ _ _ Hw Hd Hb _]. rewrite over_products_nothing in Hw, Hd, Hb.
    unfold produce_nothing in *. lia.
  - intros (Hw & Hd & Hb).
    constructor; rewrite ?over_products_nothing; unfold produce_nothing; lia.
Qed.

(** With figures that are not negative, a negative capacity leaves no
    feasible point. *)
Lemma negative_capacity_no_point self a :
  nonneg_figures self ->
  ~ capacity_nonneg (manufacturing_capacity self) ->
  ~ feasible (prob self) a.
Proof.
  intros Hn Hc Hf. apply Hc. clear Hc.
  destruct (nonneg_key self Hn) as (_ & Kw & Km & Kd).
  destruct Hn as [_ (N1 & N2 & _ & N4 & N5)].
  apply feasible_iff in Hf. destruct Hf as [Hp Hd Hu Hw Hdh Hb _].
  pose proof (over_products_nonneg _ self a Kw Hp).
  pose proof (over_products_nonneg _ self a Km Hp).
  pose proof (over_products_nonneg _ self a Kd Hp).
  unfold capacity_nonneg. nia.
Qed.

Lemma init_nonneg c : nonneg_figures (with_capacity init c).
Proof.
  split; [|unfold new_product_nonneg; simpl; lia].
  repeat constructor; simpl; lia.
Qed.

Lemma negative_wood_solved c s :
  Capacity.wood_hours c < 0 ->
  status s = LpStatusInfeasible ->
  milp_solved (prob (with_capacity init c)) s.
Proof.
  intros Hc E. apply solved_infeasible; [exact E|].
  intros a. apply negative_capacity_no_point; [apply init_nonneg|].
  unfold capacity_nonneg; simpl. lia.
Qed.

(** X5: when no per-unit figure is negative and some capacity is, the
    problem has no feasible point: an exact solver reports Infeasible, and a
    run that returns carries the status ["Infeasible"]. *)
Theorem negative_capacity_infeasible self s :
  nonneg_figures self ->
  ~ capacity_nonneg (manufacturing_capacity self) ->
  milp_solved (prob self) s ->
  (forall a, ~ feasible (prob self) a) /\
  status s = LpStatusInfeasible /\
  (forall r, optimize_business_strategy self s = Py.Ok r ->
             r_status r = "Infeasible"%string).
Proof.
  intros Hn Hc Hs.
  assert (Hno : forall a, ~ feasible (prob self) a)
    by (intros a; now apply negative_capacity_no_point).
  split; [exact Hno|].
  destruct Hs as [a _ [Hf _] _ | E _ | _ [a Hf] _];
    [now apply Hno in Hf | | now apply Hno in Hf].
  split; [exact E|]. intros r Hr.
  apply optimize_ok in Hr as (Hst & _). rewrite E in Hst.
  now injection Hst as <-.
Qed.

Lemma negative_capacity_infeasible_witness :
  (forall a, ~ feasible (prob (with_capacity init wood_minus_one)) a) /\
  status s_infeasible_three = LpStatusInfeasible /\
  (forall r, optimize_business_strategy (with_capacity init wood_minus_one)
               s_infeasible_three = Py.Ok r ->
             r_status r = "Infeasible"%string).
Proof.
  apply (negative_capacity_infeasible
           (with_capacity init wood_minus_one) s_infeasible_three).
  - apply init_nonneg.
  - unfold capacity_nonneg; simpl. lia.
  - apply negative_wood_solved; [simpl; lia | reflexivity].
Defined.

(** X6: when no per-unit figure is negative and the design hours required
    exceed the design hours, or the prototype cost exceeds the budget, no
    feasible solution approves the new product or makes a unit of it. *)
Theorem approval_out_of_reach self a :
  nonneg_figures self ->
  Capacity.design_hours (manufacturing_capacity self)
    < NewProduct.design_hours_required (new_product_design self) \/
  Capacity.budget (manufacturing_capacity self)
    < NewProduct.prototype_cost (new_product_design self) ->
  feasible (prob self) a ->
  a Design_New_Product = 0 /\ a New_Product_Units = 0.
Proof.
  intros Hn Hout Hf.
  destruct (nonneg_key self Hn) as (_ & _ & Km & Kd).
  destruct Hn as [_ (N1 & N2 & _ & _ & N5)].
  apply feasible_iff in Hf. destruct Hf as [Hp Hd Hu _ Hdh Hb Hg].
  pose proof (over_products_nonneg _ self a Km Hp).
  pose proof (over_products_nonneg _ self a Kd Hp).
  assert (a Design_New_Product = 0) by nia. lia.
Qed.

Lemma nothing_feasible self :
  capacity_nonneg (manufacturing_capacity self) ->
  feasible (prob self) produce_nothing.
Proof.
  intros (Hw & Hd & Hb). apply feasible_iff.
  constructor; rewrite ?over_products_nothing; unfold produce_nothing; lia.
Qed.

Lemma approval_out_of_reach_witness :
  produce_nothing Design_New_Product = 0 /\ produce_nothing New_Product_Units = 0.
Proof.
  apply (approval_out_of_reach (with_capacity init design_hours_fifty)
           produce_nothing).
  - apply init_nonneg.
  - left. simpl. lia.
  - apply nothing_feasible. unfold capacity_nonneg; simpl. lia.
Defined.

Lemma eval_objective_nothing self :
  eval produce_nothing (objective (prob self)) = 0.
Proof.
  rewrite eval_objective, over_products_nothing. unfold produce_nothing. lia.
Qed.

(** X7: when no capacity is negative and the float sum of the objective is
    exact on the feasible plans, the total profit of a run on a problem
    solved to optimality is at least 0, the profit of producing nothing. *)
Theorem optimal_profit_nonneg self s :
  capacity_nonneg (manufacturing_capacity self) ->
  profit_exact self ->
  milp_solved (prob self) s ->
  status s = LpStatusOptimal ->
  exists r q,
    optimize_business_strategy self s = Py.Ok r /\
    r_total_profit r = Some (Py.Fin q) /\ (0 <= q)%Q.
Proof.
  intros Hc Hex Hs Est.
  destruct Hs as [a _ [Hf Hmax] Ha | E _ | E _ _];
    [| status_clash E Est | status_clash E Est].
  destruct (optimize_exact self s a "Optimal") as [q [Hq Hrun]];
    [now rewrite Est | assumption | exact (Hex a Hf) |].
  eexists. exists q. split; [exact Hrun|]. split; [reflexivity|].
  rewrite Hq. change 0%Q with (inject_Z 0). rewrite <- Zle_Qle.
  rewrite <- (eval_objective_nothing self). apply Hmax.
  now apply nothing_feasible.
Qed.

Lemma optimal_profit_nonneg_witness :
  exists r q,
    optimize_business_strategy budget_zero s_nothing = Py.Ok r /\
    r_total_profit r = Some (Py.Fin q) /\ (0 <= q)%Q.
Proof.
  apply (optimal_profit_nonneg budget_zero s_nothing).
  - unfold capacity_nonneg; simpl. lia.
  - apply init_catalogue_exact. simpl. lia.
  - exact nothing_solves_budget_zero.
  - reflexivity.
Defined.

(** X8: raising one capacity never turns a problem with a feasible point
    into an infeasible one: if an exact solver reports Infeasible after the
    raise, it reports Infeasible before it. *)
Theorem raise_keeps_feasibility self c' s s' :
  raised (manufacturing_capacity self) c' ->
  milp_solved (prob self) s ->
  milp_solved (prob (with_capacity self c')) s' ->
  status s' = LpStatusInfeasible ->
  status s = LpStatusInfeasible.
Proof.
  intros Hr Hs Hs' Est'.
  assert (Hno : forall a, ~ feasible (prob self) a).
  { intros a Hf. apply (feasible_raised self c' a Hr) in Hf.
    destruct Hs' as [a' E _ _ | _ Hno' | E _ _];
      [status_clash E Est' | now apply Hno' in Hf | status_clash E Est']. }
  destruct Hs as [a _ [Hf _] _ | E _ | _ [a Hf] _];
    [now apply Hno in Hf | exact E | now apply Hno in Hf].
Qed.

Lemma raise_keeps_feasibility_witness :
  status s_infeasible_none = LpStatusInfeasible.
Proof.
  apply (raise_keeps_feasibility (with_capacity init wood_minus_two)
           wood_minus_one s_infeasible_none s_infeasible_three).
  - apply raised_wood_hours. lia.
  - apply negative_wood_solved; [simpl; lia | reflexivity].
  - apply (negative_wood_solved wood_minus_one); [simpl; lia | reflexivity].
  - reflexivity.
Defined.

(** ** Optimal solutions and what the run reports of them *)

(** Withdrawing an approval under which nothing is made keeps the plan
    feasible and saves the prototype cost. *)
Lemma without_approval_feasible self a :
  0 <= NewProduct.prototype_cost (new_product_design self) ->
  0 <= NewProduct.design_hours_required (new_product_design self) ->
  feasible (prob self) a -> a New_Product_Units = 0 ->
  feasible (prob self) (without_approval a).
Proof.
  intros Hc Hh Hf Hu. apply feasible_iff in Hf.
  destruct Hf as [Hp Hd _ Hw Hdh Hb _]. apply feasible_iff.
  constructor; rewrite ?over_products_without_approval;
    unfold without_approval; try assumption; try lia; nia.
Qed.

Lemma optimal_approval_needs_units self a :
  optimal (prob self) a ->
  0 < NewProduct.prototype_cost (new_product_design self) ->
  0 <= NewProduct.design_hours_required (new_product_design self) ->
  a Design_New_Product = 1 -> 0 < a New_Product_Units.
Proof.
  intros [Hf Hmax] Hc Hh Hd.
  destruct (Z.lt_ge_cases 0 (a New_Product_Units)) as [|Hle]; [assumption|].
  exfalso.
  assert (Hu : a New_Product_Units = 0).
  { apply feasible_iff in Hf. destruct Hf. lia. }
  pose proof (Hmax _ (without_approval_feasible self a
                        (Z.lt_le_incl _ _ Hc) Hh Hf Hu)) as Hb.
  rewrite !eval_objective, over_products_without_approval in Hb.
  unfold without_approval in Hb. nia.
Qed.

(** The default problem: thirty bookshelves and the launch with fifty
    units are optimal, with profit 16250. *)
Lemma init_profit_bound a :
  feasible (prob init) a -> eval a (objective (prob init)) <= 16250.
Proof.
  change (prob init)
    with (prob (with_capacity init (manufacturing_capacity init))).
  intros Hf. apply feasible_init_catalogue in Hf. simpl in Hf.
  rewrite objective_init_catalogue. lia.
Qed.

Lemma shelves_and_launch_feasible : feasible (prob init) shelves_and_launch.
Proof.
  apply (proj2 (feasible_init_catalogue (manufacturing_capacity init) _)).
  simpl. lia.
Qed.

Lemma shelves_and_launch_profit :
  eval shelves_and_launch (objective (prob init)) = 16250.
Proof.
  change (prob init)
    with (prob (with_capacity init (manufacturing_capacity init))).
  rewrite objective_init_catalogue. reflexivity.
Qed.

Lemma shelves_and_launch_solves_init :
  milp_solved (prob init) s_shelves_and_launch.
Proof.
  apply (solved_optimal _ _ shelves_and_launch).
  - reflexivity.
  - split; [exact shelves_and_launch_feasible|].
    intros b Hb. rewrite shelves_and_launch_profit. now apply init_profit_bound.
  - exact (assigns_solved (manufacturing_capacity init) LpStatusOptimal
             shelves_and_launch).
Qed.

(** X9: with a positive prototype cost and design hours required that are
    not negative, a run on a problem solved to optimality reports the new
    product as approved only together with at least one unit of it. *)
Theorem approval_reported_with_units self s r :
  milp_solved (prob self) s ->
  status s = LpStatusOptimal ->
  0 < NewProduct.prototype_cost (new_product_design self) ->
  0 <= NewProduct.design_hours_required (new_product_design self) ->
  optimize_business_strategy self s = Py.Ok r ->
  r_new_product_design r = true ->
  1 <= r_new_product_units r <= 50.
Proof.
  intros Hs Est Hc Hh Hrun Happ.
  destruct Hs as [a _ Hopt Ha | E _ | E _ _];
    [| status_clash E Est | status_clash E Est].
  assert (Hrun' := optimize_assigned self s a "Optimal").
  rewrite Est in Hrun'. specialize (Hrun' eq_refl Ha).
  rewrite Hrun in Hrun'. injection Hrun' as ->. simpl in *.
  destruct (Z.eqb_spec (a Design_New_Product) 0) as [|Hd]; [discriminate|].
  pose proof (proj1 Hopt) as Hf. apply feasible_iff in Hf.
  destruct Hf as [_ Hb Hu _ _ _ Hg].
  assert (Hone : a Design_New_Product = 1) by lia.
  pose proof (optimal_approval_needs_units self a Hopt Hc Hh Hone). lia.
Qed.

Lemma approval_reported_with_units_witness :
  1 <= r_new_product_units r_shelves_and_launch <= 50.
Proof.
  apply (approval_reported_with_units init s_shelves_and_launch
           r_shelves_and_launch).
  - exact shelves_and_launch_solves_init.
  - reflexivity.
  - simpl. lia.
  - simpl. lia.
  - reflexivity.
  - reflexivity.
Defined.

(** X10: the program as configured by [__init__].  Every problem solved
    exactly is solved to optimality, and the run returns status
    ["Optimal"], total profit 16250, the new product approved with 50
    units, no dining table, and bookshelves and office chairs that use up
    the 300 design hours left ([10 * shelves + 8 * chairs = 300]). *)
Theorem default_run s :
  milp_solved (prob init) s ->
  exists r q shelves chairs,
    optimize_business_strategy init s = Py.Ok r /\
    r_status r = "Optimal"%string /\
    r_total_profit r = Some (Py.Fin q) /\ (q == inject_Z 16250)%Q /\
    r_production_plan r
    = [ ("dining_table", 0); ("bookshelf", shelves); ("office_chair", chairs) ]%string /\
    0 <= shelves /\ 0 <= chairs /\ 10 * shelves + 8 * chairs = 300 /\
    r_new_product_design r = true /\
    r_new_product_units r = 50.
Proof.
  intros Hs.
  destruct Hs as [a Est [Hf Hmax] Ha | _ Hno | _ _ Hup].
  - pose proof (Hmax _ shelves_and_launch_feasible) as Hge.
    rewrite shelves_and_launch_profit in Hge.
    destruct (optimize_exact init s a "Optimal") as [q [Hq Hrun]];
      [now rewrite Est | assumption | now apply init_exact |].
    revert Hf Hge Hq Hrun.
    change (prob init)
      with (prob (with_capacity init (manufacturing_capacity init))).
    intros Hf Hge Hq Hrun.
    apply feasible_init_catalogue in Hf. simpl in Hf.
    rewrite objective_init_catalogue in Hge, Hq.
    assert (E1 : a (Produce "dining_table") = 0) by lia.
    assert (E4 : a Design_New_Product = 1) by lia.
    assert (E5 : a New_Product_Units = 50) by lia.
    exists {| r_status := "Optimal";
              r_total_profit := Some (Py.Fin q);
              r_production_plan :=
                [ ("dining_table", 0);
                  ("bookshelf", a (Produce "bookshelf"));
                  ("office_chair", a (Produce "office_chair")) ]%string;
              r_new_product_design := true;
              r_new_product_units := 50 |}.
    exists q, (a (Produce "bookshelf")), (a (Produce "office_chair")).
    split.
    + rewrite Hrun. simpl. rewrite E1, E4, E5. reflexivity.
    + simpl. repeat split; try lia.
      rewrite Hq. apply inject_Z_injective. lia.
  - exfalso. exact (Hno _ shelves_and_launch_feasible).
  - exfalso. destruct (Hup _ shelves_and_launch_feasible) as [b [Hb Hlt]].
    rewrite shelves_and_launch_profit in Hlt.
    apply init_profit_bound in Hb. lia.
Qed.

Lemma default_run_witness :
  exists r q shelves chairs,
    optimize_business_strategy init s_shelves_and_launch = Py.Ok r /\
    r_status r = "Optimal"%string /\
    r_total_profit r = Some (Py.Fin q) /\ (q == inject_Z 16250)%Q /\
    r_production_plan r
    = [ ("dining_table", 0); ("bookshelf", shelves); ("office_chair", chairs) ]%string /\
    0 <= shelves /\ 0 <= chairs /\ 10 * shelves + 8 * chairs = 300 /\
    r_new_product_design r = true /\
    r_new_product_units r = 50.
Proof.
  apply (default_run s_shelves_and_launch).
  exact shelves_and_launch_solves_init.
Defined.

(** X11: on a problem solved to optimality, with the float sum of the
    objective exact on the feasible plans, the run returns, and what it
    returns is an optimal, hence feasible, solution read back exactly: the
    plan holds its quantities in catalogue order, the approval flag is its
    binary, the units are its units, and the total profit is its objective
    value. *)
Theorem optimal_run_reports_solution self s :
  profit_exact self ->
  milp_solved (prob self) s ->
  status s = LpStatusOptimal ->
  exists a r q,
    optimal (prob self) a /\
    optimize_business_strategy self s = Py.Ok r /\
    r_status r = "Optimal"%string /\
    r_production_plan r
    = map (fun np => (fst np, a (Produce (fst np)))) (products self) /\
    (r_new_product_design r = true <-> a Design_New_Product = 1) /\
    r_new_product_units r = a New_Product_Units /\
    r_total_profit r = Some (Py.Fin q) /\
    (q == inject_Z (eval a (objective (prob self))))%Q.
Proof.
  intros Hex Hs Est.
  destruct Hs as [a _ Hopt Ha | E _ | E _ _];
    [| status_clash E Est | status_clash E Est].
  destruct (optimize_exact self s a "Optimal") as [q [Hq Hrun]];
    [now rewrite Est | assumption | exact (Hex a (proj1 Hopt)) |].
  exists a. eexists. exists q. split; [exact Hopt|]. split; [exact Hrun|].
  simpl. pose proof (proj1 Hopt) as Hf. apply feasible_iff in Hf.
  destruct Hf as [_ Hb Hu _ _ _ Hg].
  repeat split; try assumption.
  - destruct (Z.eqb_spec (a Design_New_Product) 0); [discriminate | lia].
  - intros ->. reflexivity.
  - destruct (Z.eqb_spec (a Design_New_Product) 0); lia.
Qed.

Lemma optimal_run_reports_solution_witness :
  exists a r q,
    optimal (prob init) a /\
    optimize_business_strategy init s_shelves_and_launch = Py.Ok r /\
    r_status r = "Optimal"%string /\
    r_production_plan r
    = map (fun np => (fst np, a (Produce (fst np)))) (products init) /\
    (r_new_product_design r = true <-> a Design_New_Product = 1) /\
    r_new_product_units r = a New_Product_Units /\
    r_total_profit r = Some (Py.Fin q) /\
    (q == inject_Z (eval a (objective (prob init))))%Q.
Proof.
  apply (optimal_run_reports_solution init s_shelves_and_launch).
  - exact init_exact.
  - exact shelves_and_launch_solves_init.
  - reflexivity.
Defined.

(** ** When the run returns and what it raises *)









(** X14: the total profit is the objective at the values the solver left,
    not at the figures reported: when the approval binary is 0 and the units
    variable is not, the run reports no approval and 0 units, and a total
    profit that still counts the estimated profit of those units (stated
    where the float sum of the objective is exact). *)
Theorem profit_counts_unapproved_units self s a st :
  lookup (status s) LpStatus = Some st ->
  assigns (prob self) s a ->
  sum_exact a (objective (prob self)) ->
  a Design_New_Product = 0 ->
  exists r q,
    optimize_business_strategy self s = Py.Ok r /\
    r_new_product_design r = false /\
    r_new_product_units r = 0 /\
    r_total_profit r = Some (Py.Fin q) /\
    (q == inject_Z (over_products Product.profit_per_unit self a
                    + NewProduct.estimated_profit_per_unit (new_product_design self)
                      * a New_Product_Units))%Q.
Proof.
  intros Hst Ha Hex Hd.
  destruct (optimize_exact self s a st Hst Ha Hex) as [q [Hq Hrun]].
  eexists. exists q. split; [exact Hrun|]. simpl. rewrite Hd. simpl.
  repeat split. rewrite Hq, eval_objective, Hd.
  apply inject_Z_injective. lia.
Qed.

Lemma profit_counts_unapproved_units_witness :
  exists r q,
    optimize_business_strategy init s_unapproved_seven = Py.Ok r /\
    r_new_product_design r = false /\
    r_new_product_units r = 0 /\
    r_total_profit r = Some (Py.Fin q) /\
    (q == inject_Z (over_products Product.profit_per_unit init three_each_seven
                    + NewProduct.estimated_profit_per_unit (new_product_design init)
                      * three_each_seven New_Product_Units))%Q.
Proof.
  apply (profit_counts_unapproved_units init s_unapproved_seven
           three_each_seven "Optimal").
  - reflexivity.
  - exact (assigns_solved (manufacturing_capacity init) LpStatusOptimal
             three_each_seven).
  - split; [repeat constructor; unfold double_int; simpl; lia|].
    vm_compute. discriminate.
  - reflexivity.
Defined.








(** ** The report and the chart *)

Lemma for_each_print {A : Type} (g : A -> string) (l : list A) :
  for_each l (fun x => print (g x)) = (map (fun x => Print (g x)) l, Py.Ok tt).
Proof.
  induction l as [|x l IH]; cbn [for_each]; [reflexivity|].
  rewrite IH. reflexivity.
Qed.

Lemma for_each_plt {A : Type} (g : A -> plt_call) (l : list A) :
  for_each l (fun x => plt (g x)) = (map (fun x => Plt (g x)) l, Py.Ok tt).
Proof.
  induction l as [|x l IH]; cbn [for_each]; [reflexivity|].
  rewrite IH. reflexivity.
Qed.

Lemma printed_app out out' : printed (out ++ out') = printed out ++ printed out'.
Proof.
  induction out as [|[line|call] out IH]; simpl; [reflexivity| |assumption].
  now rewrite IH.
Qed.

Lemma plotted_app out out' : plotted (out ++ out') = plotted out ++ plotted out'.
Proof.
  induction out as [|[line|call] out IH]; simpl; [reflexivity|assumption|].
  now rewrite IH.
Qed.

Lemma printed_map_Print {A : Type} (g : A -> string) l :
  printed (map (fun x => Print (g x)) l) = map g l.
Proof. induction l as [|x l IH]; simpl; [reflexivity | now rewrite IH]. Qed.

Lemma printed_map_Plt {A : Type} (g : A -> plt_call) l :
  printed (map (fun x => Plt (g x)) l) = [].
Proof. induction l as [|x l IH]; simpl; [reflexivity | assumption]. Qed.

Lemma plotted_map_Print {A : Type} (g : A -> string) l :
  plotted (map (fun x => Print (g x)) l) = [].
Proof. induction l as [|x l IH]; simpl; [reflexivity | assumption]. Qed.

Lemma plotted_map_Plt {A : Type} (g : A -> plt_call) l :
  plotted (map (fun x => Plt (g x)) l) = map g l.
Proof. induction l as [|x l IH]; simpl; [reflexivity | now rewrite IH]. Qed.

(** The effects of [visualize_results], spelled out. *)
Lemma visualize_results_out r :
  visualize_results r =
  ([ Plt (plt_figure 10 6);
     Plt (plt_bar (map fst (r_production_plan r)) (map snd (r_production_plan r)));
     Plt (plt_title "Optimal Production Plan");
     Plt (plt_xlabel "Product");
     Plt (plt_ylabel "Number of Units");
     Plt (plt_xticks 45) ]
   ++ map (fun iv => Plt (plt_text (fst iv) (snd iv) (PyStr.of_int (snd iv))
                            "center" "bottom"))
          (enumerate (map snd (r_production_plan r)))
   ++ [ Plt plt_tight_layout; Plt (plt_savefig "production_plan.png");
        Plt plt_close ],
   Py.Ok tt).
Proof.
  unfold visualize_results. rewrite for_each_plt. reflexivity.
Qed.

(** The three ways [run_optimization] can go. *)
Lemma run_optimization_raise fmt self s e :
  optimize_business_strategy self s = Py.Raise e ->
  run_optimization fmt self s = ([], Py.Raise e).
Proof. intros H. unfold run_optimization. now rewrite H. Qed.

Lemma run_optimization_no_profit fmt self s r :
  optimize_business_strategy self s = Py.Ok r ->
  r_total_profit r = None ->
  run_optimization fmt self s =
  ([ Print (PyStr.nl ++ "--- Furniture Business Optimization Results ---");
     Print ("Optimization Status: " ++ r_status r) ],
   Py.Raise Py.TypeError).
Proof.
  intros H Hp. unfold run_optimization. rewrite H. simpl. now rewrite Hp.
Qed.

Lemma run_optimization_profit fmt self s r x :
  optimize_business_strategy self s = Py.Ok r ->
  r_total_profit r = Some x ->
  run_optimization fmt self s =
  ([ Print (PyStr.nl ++ "--- Furniture Business Optimization Results ---");
     Print ("Optimization Status: " ++ r_status r);
     Print (PyStr.nl ++ "Total Projected Profit: $" ++ fmt x);
     Print (PyStr.nl ++ "Production Plan:") ]
   ++ map (fun pu => Print (display_name (fst pu) ++ ": "
                            ++ PyStr.of_int (snd pu) ++ " units"))
          (r_production_plan r)
   ++ [ Print (PyStr.nl ++ "New Product Design:");
        Print ("Design Approved: " ++ PyStr.of_bool (r_new_product_design r));
        Print ("New Product Units: " ++ PyStr.of_int (r_new_product_units r)) ]
   ++ fst (visualize_results r),
   Py.Ok r).
Proof.
  intros H Hp. unfold run_optimization. rewrite H. simpl. rewrite Hp. simpl.
  rewrite for_each_print, visualize_results_out. simpl.
  rewrite app_nil_r. reflexivity.
Qed.

(** X16: a dictionary that [run_optimization] returns is the one that
    [optimize_business_strategy] returned, handed on unchanged, and its
    total profit is not [None]. *)
Theorem run_optimization_returns fmt self s r :
  snd (run_optimization fmt self s) = Py.Ok r ->
  optimize_business_strategy self s = Py.Ok r /\ r_total_profit r <> None.
Proof.
  destruct (optimize_business_strategy self s) as [r'|e] eqn:H.
  - destruct (r_total_profit r') as [x|] eqn:Hp.
    + rewrite (run_optimization_profit fmt self s r' x H Hp). simpl.
      intros E. injection E as <-. split; [reflexivity | congruence].
    + rewrite (run_optimization_no_profit fmt self s r' H Hp). discriminate.
  - rewrite (run_optimization_raise fmt self s e H). discriminate.
Qed.

Lemma run_optimization_returns_witness :
  optimize_business_strategy init s_shelves_and_launch
  = Py.Ok r_shelves_and_launch /\
  r_total_profit r_shelves_and_launch <> None.
Proof.
  apply (run_optimization_returns (fun _ => "16,250.00"%string) init
           s_shelves_and_launch r_shelves_and_launch).
  reflexivity.
Defined.

(** X17: the two ways [run_optimization] stops before the chart.  An
    exception of [optimize_business_strategy] is passed on with nothing
    printed and nothing plotted; a total profit of [None] makes the format
    of the third line raise [TypeError], after the title and the status line
    have been printed and before any plot call. *)
Theorem run_optimization_stops_early fmt self s :
  (forall e, optimize_business_strategy self s = Py.Raise e ->
             run_optimization fmt self s = ([], Py.Raise e)) /\
  (forall r, optimize_business_strategy self s = Py.Ok r ->
             r_total_profit r = None ->
             run_optimization fmt self s
             = ([ Print (PyStr.nl ++ "--- Furniture Business Optimization Results ---");
                  Print ("Optimization Status: " ++ r_status r) ],
                Py.Raise Py.TypeError)).
Proof.
  split.
  - intros e H. unfold run_optimization. now rewrite H.
  - intros r H Hp. unfold run_optimization. rewrite H. simpl. now rewrite Hp.
Qed.

Lemma run_optimization_stops_early_witness :
  run_optimization (fun _ => "0.00"%string) init s_infeasible_none
  = ([], Py.Raise Py.TypeError) /\
  run_optimization (fun _ => "0.00"%string) init s_no_design
  = ([ Print (PyStr.nl ++ "--- Furniture Business Optimization Results ---");
       Print ("Optimization Status: " ++ r_status r_no_design) ],
     Py.Raise Py.TypeError).
Proof.
  split.
  - apply (proj1 (run_optimization_stops_early (fun _ => "0.00"%string) init
                    s_infeasible_none)).
    reflexivity.
  - apply (proj2 (run_optimization_stops_early (fun _ => "0.00"%string) init
                    s_no_design) r_no_design); reflexivity.
Defined.

(** X18: when [optimize_business_strategy] returns a dictionary with a
    total profit and the product names are ASCII, [run_optimization] makes
    seven print calls and one per product: title, status, total profit, the
    heading of the plan, then for each entry of the plan, in order, the
    display name of the product with its units, then the heading, the
    approval and the units of the new product. *)
Theorem report_lines fmt self s r x :
  Forall (fun np => PyStr.ascii_text (fst np)) (products self) ->
  optimize_business_strategy self s = Py.Ok r ->
  r_total_profit r = Some x ->
  printed (fst (run_optimization fmt self s))
  = [ PyStr.nl ++ "--- Furniture Business Optimization Results ---";
       "Optimization Status: " ++ r_status r;
       PyStr.nl ++ "Total Projected Profit: $" ++ fmt x;
       PyStr.nl ++ "Production Plan:" ]%string
     ++ map (fun pu => (display_name (fst pu) ++ ": "
                        ++ PyStr.of_int (snd pu) ++ " units")%string)
            (r_production_plan r)
     ++ [ PyStr.nl ++ "New Product Design:";
          "Design Approved: " ++ PyStr.of_bool (r_new_product_design r);
          "New Product Units: " ++ PyStr.of_int (r_new_product_units r) ]%string /\
  List.length (printed (fst (run_optimization fmt self s)))
  = (7 + List.length (products self))%nat /\
  Forall (fun pu => PyStr.ascii_text (fst pu)) (r_production_plan r).
Proof.
  intros Hascii H Hp.
  rewrite (run_optimization_profit fmt self s r x H Hp).
  assert (Hout : printed
            (fst ([ Print (PyStr.nl ++ "--- Furniture Business Optimization Results ---");
                    Print ("Optimization Status: " ++ r_status r);
                    Print (PyStr.nl ++ "Total Projected Profit: $" ++ fmt x);
                    Print (PyStr.nl ++ "Production Plan:") ]
                  ++ map (fun pu => Print (display_name (fst pu) ++ ": "
                                           ++ PyStr.of_int (snd pu) ++ " units"))
                         (r_production_plan r)
                  ++ [ Print (PyStr.nl ++ "New Product Design:");
                       Print ("Design Approved: "
                              ++ PyStr.of_bool (r_new_product_design r));
                       Print ("New Product Units: "
                              ++ PyStr.of_int (r_new_product_units r)) ]
                  ++ fst (visualize_results r), Py.Ok r))
          = [ PyStr.nl ++ "--- Furniture Business Optimization Results ---";
               "Optimization Status: " ++ r_status r;
               PyStr.nl ++ "Total Projected Profit: $" ++ fmt x;
               PyStr.nl ++ "Production Plan:" ]%string
             ++ map (fun pu => (display_name (fst pu) ++ ": "
                                ++ PyStr.of_int (snd pu) ++ " units")%string)
                    (r_production_plan r)
             ++ [ PyStr.nl ++ "New Product Design:";
                  "Design Approved: " ++ PyStr.of_bool (r_new_product_design r);
                  "New Product Units: "
                  ++ PyStr.of_int (r_new_product_units r) ]%string).
  { cbn [fst]. rewrite !printed_app, printed_map_Print, visualize_results_out.
    cbn [fst]. rewrite !printed_app, printed_map_Plt. simpl.
    rewrite ?app_nil_r. reflexivity. }
  split; [exact Hout|]. rewrite Hout.
  apply optimize_ok in H as (_ & _ & _ & _ & Hplan).
  apply production_plan_ok in Hplan as [Hk _].
  split.
  - rewrite !length_app, length_map. simpl.
    rewrite <- (length_map fst (r_production_plan r)), Hk, length_map. lia.
  - rewrite Forall_forall in *. intros pu Hin.
    apply (in_map fst) in Hin. rewrite Hk in Hin.
    apply in_map_iff in Hin as [np [E Hnp]]. rewrite <- E. now apply Hascii.
Qed.

Lemma report_lines_witness :
  printed (fst (run_optimization (fun _ => "16,250.00"%string) init
                  s_shelves_and_launch))
  = [ PyStr.nl ++ "--- Furniture Business Optimization Results ---";
       "Optimization Status: " ++ r_status r_shelves_and_launch;
       PyStr.nl ++ "Total Projected Profit: $" ++ "16,250.00";
       PyStr.nl ++ "Production Plan:" ]%string
     ++ map (fun pu => (display_name (fst pu) ++ ": "
                        ++ PyStr.of_int (snd pu) ++ " units")%string)
            (r_production_plan r_shelves_and_launch)
     ++ [ PyStr.nl ++ "New Product Design:";
          "Design Approved: "
          ++ PyStr.of_bool (r_new_product_design r_shelves_and_launch);
          "New Product Units: "
          ++ PyStr.of_int (r_new_product_units r_shelves_and_launch) ]%string /\
  List.length (printed (fst (run_optimization (fun _ => "16,250.00"%string) init
                          s_shelves_and_launch)))
  = (7 + List.length (products init))%nat /\
  Forall (fun pu => PyStr.ascii_text (fst pu))
         (r_production_plan r_shelves_and_launch).
Proof.
  apply (report_lines (fun _ => "16,250.00"%string) init s_shelves_and_launch
           r_shelves_and_launch (Py.Fin (inject_Z 16250))).
  - unfold PyStr.ascii_text. repeat constructor.
  - reflexivity.
  - reflexivity.
Defined.

(** Case analysis on the eight bits of a character. *)
Ltac by_cases_on c :=
  destruct c as [[] [] [] [] [] [] [] []]; vm_compute; try reflexivity;
  try discriminate; try tauto; try lia.

Lemma upper_idempotent c : PyStr.upper (PyStr.upper c) = PyStr.upper c.
Proof. by_cases_on c. Qed.

Lemma lower_idempotent c : PyStr.lower (PyStr.lower c) = PyStr.lower c.
Proof. by_cases_on c. Qed.

Lemma is_cased_upper c : PyStr.is_cased (PyStr.upper c) = PyStr.is_cased c.
Proof. by_cases_on c. Qed.

Lemma is_cased_lower c : PyStr.is_cased (PyStr.lower c) = PyStr.is_cased c.
Proof. by_cases_on c. Qed.

Lemma upper_underscore c : PyStr.upper c = "_"%char -> c = "_"%char.
Proof. by_cases_on c. Qed.

Lemma lower_underscore c : PyStr.lower c = "_"%char -> c = "_"%char.
Proof. by_cases_on c. Qed.

Lemma upper_ascii c :
  (nat_of_ascii c < 128)%nat -> (nat_of_ascii (PyStr.upper c) < 128)%nat.
Proof. by_cases_on c. Qed.

Lemma lower_ascii c :
  (nat_of_ascii c < 128)%nat -> (nat_of_ascii (PyStr.lower c) < 128)%nat.
Proof. by_cases_on c. Qed.

Lemma length_replace old new s :
  String.length (PyStr.replace old new s) = String.length s.
Proof. induction s as [|c s IH]; simpl; [reflexivity | now rewrite IH]. Qed.

Lemma length_title_from b s :
  String.length (PyStr.title_from b s) = String.length s.
Proof.
  revert b. induction s as [|c s IH]; intros b; simpl;
    [reflexivity | now rewrite IH].
Qed.

Lemma title_from_idempotent b s :
  PyStr.title_from b (PyStr.title_from b s) = PyStr.title_from b s.
Proof.
  revert b. induction s as [|c s IH]; intros b; simpl; [reflexivity|].
  destruct b.
  - now rewrite lower_idempotent, is_cased_lower, IH.
  - now rewrite upper_idempotent, is_cased_upper, IH.
Qed.

Lemma underscore_title_from b s :
  In "_"%char (list_ascii_of_string (PyStr.title_from b s)) ->
  In "_"%char (list_ascii_of_string s).
Proof.
  revert b. induction s as [|c s IH]; intros b; simpl; [tauto|].
  intros [E|H]; [left | right; eauto].
  destruct b; [now apply lower_underscore | now apply upper_underscore].
Qed.

Lemma underscore_replaced s :
  ~ In "_"%char (list_ascii_of_string (PyStr.replace "_" " " s)).
Proof.
  induction s as [|c s IH]; simpl; [tauto|].
  intros [E|H]; [|contradiction].
  destruct (Ascii.eqb_spec c "_"); [discriminate | congruence].
Qed.

Lemma ascii_replace s :
  PyStr.ascii_text s -> PyStr.ascii_text (PyStr.replace "_" " " s).
Proof.
  unfold PyStr.ascii_text.
  induction s as [|c s IH]; simpl; intros H; [constructor|].
  inversion H as [|? ? Hc Hs]; subst. constructor; [|auto].
  destruct (Ascii.eqb c "_"); [vm_compute; lia | assumption].
Qed.

Lemma ascii_title_from b s :
  PyStr.ascii_text s -> PyStr.ascii_text (PyStr.title_from b s).
Proof.
  unfold PyStr.ascii_text. revert b.
  induction s as [|c s IH]; intros b; simpl; intros H; [constructor|].
  inversion H as [|? ? Hc Hs]; subst. constructor; [|auto].
  destruct b; [now apply lower_ascii | now apply upper_ascii].
Qed.

(** X20: the name the report shows for a product with an ASCII name is as
    long as the name, is ASCII, contains no underscore, and is in title
    case already: taking [title] of it again changes nothing. *)
Theorem display_name_shape product :
  PyStr.ascii_text product ->
  String.length (display_name product) = String.length product /\
  PyStr.ascii_text (display_name product) /\
  ~ In "_"%char (list_ascii_of_string (display_name product)) /\
  PyStr.title (display_name product) = display_name product.
Proof.
  intros Ha. unfold display_name, PyStr.title. repeat split.
  - now rewrite length_title_from, length_replace.
  - now apply ascii_title_from, ascii_replace.
  - intros H. apply underscore_title_from in H.
    now apply underscore_replaced in H.
  - apply title_from_idempotent.
Qed.

Lemma display_name_shape_witness :
  display_name "dining_table" = "Dining Table"%string /\
  String.length (display_name "dining_table") = String.length "dining_table" /\
  PyStr.ascii_text (display_name "dining_table") /\
  ~ In "_"%char (list_ascii_of_string (display_name "dining_table")) /\
  PyStr.title (display_name "dining_table") = display_name "dining_table".
Proof.
  split; [reflexivity|].
  apply (display_name_shape "dining_table").
  unfold PyStr.ascii_text. repeat constructor.
Defined.

(** What an exactly solved default problem carries. *)
Lemma init_solved s :
  milp_solved (prob init) s ->
  exists a,
    status s = LpStatusOptimal /\ assigns (prob init) s a /\
    a (Produce "dining_table") = 0 /\
    0 <= a (Produce "bookshelf") /\ 0 <= a (Produce "office_chair") /\
    10 * a (Produce "bookshelf") + 8 * a (Produce "office_chair") = 300 /\
    a Design_New_Product = 1 /\ a New_Product_Units = 50 /\
    eval a (objective (prob init)) = 16250.
Proof.
  intros Hs.
  destruct Hs as [a Est [Hf Hmax] Ha | _ Hno | _ _ Hup].
  - pose proof (Hmax _ shelves_and_launch_feasible) as Hge.
    rewrite shelves_and_launch_profit in Hge.
    pose proof (init_profit_bound a Hf) as Hle.
    exists a. split; [exact Est|]. split; [exact Ha|].
    revert Hf Hge Hle.
    change (prob init)
      with (prob (with_capacity init (manufacturing_capacity init))).
    intros Hf Hge Hle.
    apply feasible_init_catalogue in Hf. simpl in Hf.
    rewrite objective_init_catalogue in *. lia.
  - exfalso. exact (Hno _ shelves_and_launch_feasible).
  - exfalso. destruct (Hup _ shelves_and_launch_feasible) as [b [Hb Hlt]].
    rewrite shelves_and_launch_profit in Hlt.
    apply init_profit_bound in Hb. lia.
Qed.

(** X21: the program as shipped, from the solved problem to the console.
    On the exactly solved default problem [run_optimization] returns, saves
    the chart to [production_plan.png], and prints the status Optimal, the
    total profit 16250 in the money format, no dining table, the
    bookshelves and office chairs of the plan, the approval [True] and 50
    units of the new product. *)
Theorem default_report fmt s :
  milp_solved (prob init) s ->
  exists r q shelves chairs,
    snd (run_optimization fmt init s) = Py.Ok r /\
    (q == inject_Z 16250)%Q /\
    10 * shelves + 8 * chairs = 300 /\
    printed (fst (run_optimization fmt init s))
    = [ PyStr.nl ++ "--- Furniture Business Optimization Results ---";
        "Optimization Status: Optimal";
        PyStr.nl ++ "Total Projected Profit: $" ++ fmt (Py.Fin q);
        PyStr.nl ++ "Production Plan:";
        "Dining Table: 0 units";
        "Bookshelf: " ++ PyStr.of_int shelves ++ " units";
        "Office Chair: " ++ PyStr.of_int chairs ++ " units";
        PyStr.nl ++ "New Product Design:";
        "Design Approved: True";
        "New Product Units: 50" ]%string /\
    In (plt_savefig "production_plan.png")
       (plotted (fst (run_optimization fmt init s))).
Proof.
  intros Hs.
  destruct (init_solved s Hs)
    as (a & Est & Ha & E1 & P2 & P3 & Hsum & E4 & E5 & Hobj).
  assert (Hex : sum_exact a (objective (prob init))).
  { split; [repeat constructor; unfold double_int; simpl; lia|].
    cbn [objective prob total_profit_objective linear terms constant
         product_sum map fst snd app weight products init
         new_product_design Product.profit_per_unit
         NewProduct.prototype_cost NewProduct.estimated_profit_per_unit].
    rewrite E1, E4, E5. change (2 ^ 53) with 9007199254740992. lia. }
  destruct (optimize_exact init s a "Optimal") as [q [Hq Hrun]];
    [now rewrite Est | assumption | exact Hex |].
  rewrite Hobj in Hq.
  eexists. exists q, (a (Produce "bookshelf")), (a (Produce "office_chair")).
  rewrite (run_optimization_profit fmt init s _ (Py.Fin q) Hrun eq_refl).
  cbn [fst snd]. split; [reflexivity|]. split; [exact Hq|].
  split; [exact Hsum|]. rewrite visualize_results_out. cbn [fst].
  cbn [r_status r_production_plan r_new_product_design r_new_product_units
       products init map fst snd].
  rewrite E1, E4, E5. split.
  - reflexivity.
  - cbn [app map plotted enumerate enumerate_from In]. tauto.
Qed.

Lemma default_report_witness :
  exists r q shelves chairs,
    snd (run_optimization (fun _ => "16,250.00"%string) init
           s_shelves_and_launch) = Py.Ok r /\
    (q == inject_Z 16250)%Q /\
    10 * shelves + 8 * chairs = 300 /\
    printed (fst (run_optimization (fun _ => "16,250.00"%string) init
                    s_shelves_and_launch))
    = [ PyStr.nl ++ "--- Furniture Business Optimization Results ---";
        "Optimization Status: Optimal";
        PyStr.nl ++ "Total Projected Profit: $" ++ "16,250.00";
        PyStr.nl ++ "Production Plan:";
        "Dining Table: 0 units";
        "Bookshelf: " ++ PyStr.of_int shelves ++ " units";
        "Office Chair: " ++ PyStr.of_int chairs ++ " units";
        PyStr.nl ++ "New Product Design:";
        "Design Approved: True";
        "New Product Units: 50" ]%string /\
    In (plt_savefig "production_plan.png")
       (plotted (fst (run_optimization (fun _ => "16,250.00"%string) init
                        s_shelves_and_launch))).
Proof.
  apply (default_report (fun _ => "16,250.00"%string) s_shelves_and_launch).
  exact shelves_and_launch_solves_init.
Defined.
